(** * GitHub Project Management MCP server: the tool-invocation core

    A shallow embedding of [main.ts].  The program is a set of tool
    callbacks registered on an MCP server; every callback builds a GraphQL
    document and a variables object and hands them to
    [executeGitHubGraphQL], which reads the bearer token from the process
    environment, performs one HTTP POST and classifies the outcome.

    What the Deno runtime supplies (the environment, [fetch], the JSON
    serializer) is a [Runtime] record read by the code; what the code does
    to the outside world (requests sent, console lines written) is
    accumulated in an [Effects] record threaded through a small
    exception-and-state monad [M]. *)

From Stdlib Require Import String Ascii List Bool ZArith QArith Lia DecimalString.
Import ListNotations.
Local Close Scope Q_scope.
Local Open Scope list_scope.
Local Open Scope string_scope.

Set Warnings "-register-all".

(** ** JSON values and JavaScript values *)

(** A value that came out of [response.json()] or goes into
    [JSON.stringify].  Numbers are rationals: every JSON number literal
    denotes one, and the program only compares them. *)
Inductive json : Type :=
| JNull
| JBool (b : bool)
| JNumber (q : Q)
| JString (s : string)
| JArray (items : list json)
| JObject (members : list (string * json)).

(** A JavaScript value of the program: [None] is [undefined]. *)
Definition jsval : Type := option json.

Definition undefined : jsval := None.

(** Own-property lookup in an object parsed from JSON (whose keys are
    distinct). *)
Fixpoint assoc (k : string) (ms : list (string * json)) : jsval :=
  match ms with
  | [] => undefined
  | (k', v) :: rest => if String.eqb k k' then Some v else assoc k rest
  end.

(** An object literal as [JSON.stringify] transmits it: a property whose
    value is [undefined] is left out. *)
Fixpoint object_literal (ps : list (string * jsval)) : list (string * json) :=
  match ps with
  | [] => []
  | (k, Some v) :: rest => (k, v) :: object_literal rest
  | (_, None) :: rest => object_literal rest
  end.

(** [!s] for an optional string: [undefined] and the empty string are the
    falsy ones. *)
Definition truthy (s : option string) : bool :=
  match s with
  | None => false
  | Some "" => false
  | Some _ => true
  end.

(** [typeof], as zod reports the received type. *)
Definition typeof (v : jsval) : string :=
  match v with
  | None => "undefined"
  | Some JNull => "null"
  | Some (JBool _) => "boolean"
  | Some (JNumber _) => "number"
  | Some (JString _) => "string"
  | Some (JArray _) => "array"
  | Some (JObject _) => "object"
  end.

(** ** Errors, outcomes and effects *)

(** What a [throw] or a rejected promise carries. *)
Inductive JsError : Type :=
| Error (message : string)
| TypeError (message : string)
| SyntaxError (message : string).

Inductive Outcome (A : Type) : Type :=
| Return (a : A)
| Throw (e : JsError).
Arguments Return {A} a.
Arguments Throw {A} e.

(** The [Response] of the Fetch API; [ok] is derived from [status] the way
    the platform does it, [text] and [json] stand for the results of
    [response.text()] and [response.json()]. *)
Record Response : Type := {
  status : Z;
  body_text : string;
  json_body : Outcome json
}.

Definition ok (r : Response) : bool :=
  (200 <=? status r)%Z && (status r <=? 299)%Z.

(** The second argument of [fetch]. *)
Record RequestInit : Type := {
  method : string;
  headers : list (string * string);
  body : json
}.

(** One outbound call: the URL and the init object.  [body] is the value
    handed to [JSON.stringify]. *)
Record Request : Type := {
  url : string;
  init : RequestInit
}.

Inductive FetchResult : Type :=
| Rejected (e : JsError)
| Resolved (r : Response).

Inductive ConsoleLine : Type :=
| console_error_line (label : string) (e : JsError)
| console_log_line (v : json).

(** What the process reads from its host. The remote answers a request
    knowing the requests sent before it. *)
Record Runtime : Type := {
  Deno_env_get : string -> option string;
  fetch : list Request -> Request -> FetchResult;
  JSON_stringify : json -> string
}.

(** What an invocation has done so far; [network] is in sending order. *)
Record Effects : Type := {
  network : list Request;
  console : list ConsoleLine
}.

Definition no_effects : Effects := {| network := []; console := [] |}.

(** ** The monad of asynchronous, throwing code *)

Definition M (A : Type) : Type := Runtime -> Effects -> Outcome A * Effects.

Definition ret {A} (a : A) : M A := fun _ s => (Return a, s).

Definition throw {A} (e : JsError) : M A := fun _ s => (Throw e, s).

Definition bind {A B} (m : M A) (k : A -> M B) : M B :=
  fun rt s =>
    match m rt s with
    | (Return a, s') => k a rt s'
    | (Throw e, s') => (Throw e, s')
    end.

(** [try { m } catch (error) { h error }] *)
Definition try_catch {A} (m : M A) (h : JsError -> M A) : M A :=
  fun rt s =>
    match m rt s with
    | (Return a, s') => (Return a, s')
    | (Throw e, s') => h e rt s'
    end.

Declare Scope js_scope.
Delimit Scope js_scope with js.
Notation "x <- m ;; k" := (bind m (fun x => k))
  (at level 61, m at next level, right associativity) : js_scope.
Notation "m ;; k" := (bind m (fun _ => k))
  (at level 61, right associativity) : js_scope.
Local Open Scope js_scope.

Definition env_get (name : string) : M (option string) :=
  fun rt s => (Return (Deno_env_get rt name), s).

(** [await fetch(url, init)]: the request is recorded, then the remote's
    answer decides between a response and a rejection. *)
Definition await_fetch (u : string) (i : RequestInit) : M Response :=
  fun rt s =>
    let req := {| url := u; init := i |} in
    let s' := {| network := (network s ++ [req])%list; console := console s |} in
    match fetch rt (network s) req with
    | Resolved r => (Return r, s')
    | Rejected e => (Throw e, s')
    end.

Definition await_text (r : Response) : M string := ret (body_text r).

Definition await_json (r : Response) : M json :=
  fun _ s => (json_body r, s).

Definition console_error (label : string) (e : JsError) : M unit :=
  fun _ s => (Return tt,
              {| network := network s;
                 console := (console s ++ [console_error_line label e])%list |}).

Definition console_log (v : json) : M unit :=
  fun _ s => (Return tt,
              {| network := network s;
                 console := (console s ++ [console_log_line v])%list |}).

Definition stringify (v : json) : M string :=
  fun rt s => (Return (JSON_stringify rt v), s).

(** Running a computation from a clean slate. *)
Definition run {A} (m : M A) (rt : Runtime) : Outcome A * Effects :=
  m rt no_effects.

(** A number inside a template literal (integers only: HTTP statuses). *)
Definition show_Z (z : Z) : string := NilZero.string_of_int (Z.to_int z).

(** ** Remote Call Executor *)

Definition endpoint : string := "https://api.github.com/graphql".

(** The body [{ query, variables }] of a call. *)
Definition graphql_body (query : string) (variables : json) : json :=
  JObject [("query", JString query); ("variables", variables)].

Definition graphql_init (token query : string) (variables : json) : RequestInit :=
  {| method := "POST";
     headers := [("Authorization", "Bearer " ++ token);
                 ("Content-Type", "application/json")];
     body := graphql_body query variables |}.

Definition graphql_request (token query : string) (variables : json) : Request :=
  {| url := endpoint; init := graphql_init token query variables |}.

Definition executeGitHubGraphQL (query : string) (variables : json) : M json :=
  try_catch
    (token <- env_get "GITHUB_TOKEN" ;;
     match token with
     | None | Some "" =>
         throw (Error "GITHUB_TOKEN environment variable is not set")
     | Some token =>
         response <- await_fetch endpoint (graphql_init token query variables) ;;
         if negb (ok response) then
           errorText <- await_text response ;;
           throw (Error ("GitHub API error (" ++ show_Z (status response)
                           ++ "): " ++ errorText))
         else await_json response
     end)
    (fun error =>
       console_error "GraphQL query error:" error ;;
       throw error).

(** ** GraphQL documents

    The template literals of [main.ts], character for character. *)

(** Template literal of [getCurrentUser]. *)
Definition GetCurrentUser_query : string :=
"
    query GetCurrentUser {
      viewer {
        id
        login
      }
    }
  ".

(** Template literal of [getProjectId]. *)
Definition GetOrganizationProjectsByName_query : string :=
"
    query GetOrganizationProjects($org: String!, $projectName: String!) {
      organization(login: $org) {
        projectsV2(first: 10, query: $projectName) {
          nodes {
            id
            title
          }
        }
      }
    }
  ".

(** Template literal of [get_github_projects]. *)
Definition GetOrganizationProjects_query : string :=
"
      query GetOrganizationProjects($org: String!) {
        organization(login: $org) {
          projectsV2(first: 20) {
            nodes {
              id
              title
              shortDescription
              url
              closed
              createdAt
              updatedAt
            }
          }
        }
      }
    ".

(** Template literal of [get_project_details]. *)
Definition GetProjectDetails_query : string :=
"
      query GetProjectDetails($id: ID!) {
        node(id: $id) {
          ... on ProjectV2 {
            id
            title
            shortDescription
            url
            closed
            createdAt
            updatedAt
            readme
            items(first: 20) {
              nodes {
                id
                content {
                  ... on Issue {
                    title
                    url
                    state
                  }
                  ... on PullRequest {
                    title
                    url
                    state
                  }
                }
                fieldValues(first: 8) {
                  nodes {
                    ... on ProjectV2ItemFieldTextValue {
                      text
                      field {
                        ... on ProjectV2FieldCommon {
                          name
                        }
                      }
                    }
                    ... on ProjectV2ItemFieldDateValue {
                      date
                      field {
                        ... on ProjectV2FieldCommon {
                          name
                        }
                      }
                    }
                    ... on ProjectV2ItemFieldSingleSelectValue {
                      name
                      field {
                        ... on ProjectV2FieldCommon {
                          name
                        }
                      }
                    }
                  }
                }
              }
            }
            fields(first: 20) {
              nodes {
                ... on ProjectV2FieldCommon {
                  id
                  name
                }
                ... on ProjectV2SingleSelectField {
                  id
                  name
                  options {
                    id
                    name
                    color
                  }
                }
              }
            }
          }
        }
      }
    ".

(** Template literal of [get_repository_issues]. *)
Definition GetRepositoryIssues_query : string :=
"
      query GetRepositoryIssues($owner: String!, $repo: String!, $states: [IssueState!], $first: Int!) {
        repository(owner: $owner, name: $repo) {
          issues(first: $first, states: $states, orderBy: {field: CREATED_AT, direction: DESC}) {
            nodes {
              id
              number
              title
              state
              createdAt
              updatedAt
              url
              author {
                login
              }
              labels(first: 10) {
                nodes {
                  name
                  color
                }
              }
              assignees(first: 5) {
                nodes {
                  login
                  avatarUrl
                }
              }
              projectsV2(first: 10) {
                nodes {
                  id
                  title
                }
              }
            }
          }
        }
      }
    ".

(** Template literal of [get_repository_pull_requests]. *)
Definition GetRepositoryPullRequests_query : string :=
"
      query GetRepositoryPullRequests($owner: String!, $repo: String!, $states: [PullRequestState!], $first: Int!) {
        repository(owner: $owner, name: $repo) {
          pullRequests(first: $first, states: $states, orderBy: {field: CREATED_AT, direction: DESC}) {
            nodes {
              id
              number
              title
              state
              createdAt
              updatedAt
              url
              author {
                login
              }
              labels(first: 10) {
                nodes {
                  name
                  color
                }
              }
              assignees(first: 5) {
                nodes {
                  login
                  avatarUrl
                }
              }
              reviews(first: 10) {
                nodes {
                  author {
                    login
                  }
                  state
                }
              }
              projectsV2(first: 10) {
                nodes {
                  id
                  title
                }
              }
            }
          }
        }
      }
    ".

(** Template literal of [add_item_to_project, content branch]. *)
Definition AddProjectItem_mutation : string :=
"
        mutation AddProjectItem($input: AddProjectV2ItemByIdInput!) {
          addProjectV2ItemById(input: $input) {
            item {
              id
            }
          }
        }
      ".

(** Template literal of [add_item_to_project, draft branch]. *)
Definition AddDraftIssue_mutation : string :=
"
        mutation AddDraftIssue($input: AddProjectV2DraftIssueInput!) {
          addProjectV2DraftIssue(input: $input) {
            projectItem {
              id
            }
          }
        }
      ".

(** Template literal of [update_project_item_field]. *)
Definition UpdateProjectItemField_mutation : string :=
"
      mutation UpdateProjectItemField($input: UpdateProjectV2ItemFieldValueInput!) {
        updateProjectV2ItemFieldValue(input: $input) {
          projectV2Item {
            id
          }
        }
      }
    ".

(** Template literal of [get_repositories, isOrg]. *)
Definition GetOrgRepos_query : string :=
"
        query GetOrgRepos($owner: String!, $first: Int!) {
          organization(login: $owner) {
            repositories(first: $first, orderBy: {field: UPDATED_AT, direction: DESC}) {
              nodes {
                id
                name
                description
                url
                stargazerCount
                forkCount
                isPrivate
                updatedAt
              }
            }
          }
        }
      ".

(** Template literal of [get_repositories, not isOrg]. *)
Definition GetUserRepos_query : string :=
"
        query GetUserRepos($owner: String!, $first: Int!) {
          user(login: $owner) {
            repositories(first: $first, orderBy: {field: UPDATED_AT, direction: DESC}) {
              nodes {
                id
                name
                description
                url
                stargazerCount
                forkCount
                isPrivate
                updatedAt
              }
            }
          }
        }
      ".

(** Template literal of [get_project_views]. *)
Definition GetProjectViews_query : string :=
"
      query GetProjectViews($id: ID!) {
        node(id: $id) {
          ... on ProjectV2 {
            views(first: 10) {
              nodes {
                id
                name
                layout
                fields {
                  ... on ProjectV2FieldCommon {
                    id
                    name
                  }
                }
              }
            }
          }
        }
      }
    ".

(** ** Property reads on the parsed response

    [v.k] and [v[0]] for the property names this program reads ([data],
    [organization], [projectsV2], [nodes], [id]); none of them is defined
    on a prototype, so arrays and primitives answer [undefined]. Reading a
    property of [undefined] or [null] throws. *)

Definition cannot_read (what k : string) : JsError :=
  TypeError ("Cannot read properties of " ++ what ++ " (reading '" ++ k ++ "')").

Definition get_property (v : jsval) (k : string) : M jsval :=
  match v with
  | None => throw (cannot_read "undefined" k)
  | Some JNull => throw (cannot_read "null" k)
  | Some (JObject ms) => ret (assoc k ms)
  | Some _ => ret undefined
  end.

(** [v[0]] *)
Definition get_first (v : jsval) : M jsval :=
  match v with
  | None => throw (cannot_read "undefined" "0")
  | Some JNull => throw (cannot_read "null" "0")
  | Some (JArray items) => ret (hd_error items)
  | Some (JObject ms) => ret (assoc "0" ms)
  | Some (JString (String c _)) => ret (Some (JString (String c "")))
  | Some _ => ret undefined
  end.

(** ** Auxiliary resolution *)

Definition getCurrentUser : M jsval :=
  userData <- executeGitHubGraphQL GetCurrentUser_query (JObject []) ;;
  d <- get_property (Some userData) "data" ;;
  v <- get_property d "viewer" ;;
  get_property v "login".

Definition getProjectId (organization projectName : string) : M jsval :=
  data <- executeGitHubGraphQL GetOrganizationProjectsByName_query
            (JObject [("org", JString organization);
                      ("projectName", JString projectName)]) ;;
  d <- get_property (Some data) "data" ;;
  o <- get_property d "organization" ;;
  p <- get_property o "projectsV2" ;;
  n <- get_property p "nodes" ;;
  node0 <- get_first n ;;
  get_property node0 "id".

(** ** Tool callbacks *)

Record TextContent : Type := { type : string; text : string }.

Record CallToolResult : Type := { content : list TextContent }.

(** [{ content: [{ type: "text", text: JSON.stringify(data) }] }] *)
Definition text_result (data : json) : M CallToolResult :=
  t <- stringify data ;;
  ret {| content := [{| type := "text"; text := t |}] |}.

Definition get_github_projects (organization : string) : M CallToolResult :=
  data <- executeGitHubGraphQL GetOrganizationProjects_query
            (JObject [("org", JString organization)]) ;;
  text_result data.

Definition get_project_details (projectId : string) : M CallToolResult :=
  data <- executeGitHubGraphQL GetProjectDetails_query
            (JObject [("id", JString projectId)]) ;;
  text_result data.

Definition get_repository_issues (owner repo states : string) (first : Q)
  : M CallToolResult :=
  let issueStates :=
    if states =? "ALL" then [JString "OPEN"; JString "CLOSED"]
    else [JString states] in
  data <- executeGitHubGraphQL GetRepositoryIssues_query
            (JObject [("owner", JString owner); ("repo", JString repo);
                      ("states", JArray issueStates);
                      ("first", JNumber first)]) ;;
  text_result data.

Definition get_repository_pull_requests (owner repo states : string) (first : Q)
  : M CallToolResult :=
  let prStates :=
    if states =? "ALL" then [JString "OPEN"; JString "CLOSED"; JString "MERGED"]
    else [JString states] in
  data <- executeGitHubGraphQL GetRepositoryPullRequests_query
            (JObject [("owner", JString owner); ("repo", JString repo);
                      ("states", JArray prStates);
                      ("first", JNumber first)]) ;;
  text_result data.

(** [body || ""] *)
Definition or_empty (s : option string) : string :=
  match s with
  | Some b => b
  | None => ""
  end.

Definition add_item_to_project
    (organization projectName : string)
    (projectId contentId title body : option string) : M CallToolResult :=
  projectId <- (if negb (truthy projectId)
                then getProjectId organization projectName
                else ret (option_map JString projectId)) ;;
  mv <- (match contentId, title with
         | Some (String c0 c), _ =>
             let contentId := String c0 c in
             ret (AddProjectItem_mutation,
                  JObject [("input",
                            JObject (object_literal
                                       [("projectId", projectId);
                                        ("contentId", Some (JString contentId))]))])
         | _, Some (String t0 t) =>
             let title := String t0 t in
             ret (AddDraftIssue_mutation,
                  JObject [("input",
                            JObject (object_literal
                                       [("projectId", projectId);
                                        ("title", Some (JString title));
                                        ("body", Some (JString (or_empty body)))]))])
         | _, _ => throw (Error "Either contentId or title must be provided")
         end) ;;
  let '(mutation, variables) := mv in
  data <- executeGitHubGraphQL mutation variables ;;
  text_result data.

Definition update_project_item_field (projectId itemId fieldId value : string)
  : M CallToolResult :=
  let variables :=
    JObject [("input",
              JObject [("projectId", JString projectId);
                       ("itemId", JString itemId);
                       ("fieldId", JString fieldId);
                       ("value", JString value)])] in
  data <- executeGitHubGraphQL UpdateProjectItemField_mutation variables ;;
  console_log data ;;
  text_result data.

Definition get_repositories (owner : string) (isOrg : bool) (first : Q)
  : M CallToolResult :=
  let query := if isOrg then GetOrgRepos_query else GetUserRepos_query in
  data <- executeGitHubGraphQL query
            (JObject [("owner", JString owner); ("first", JNumber first)]) ;;
  text_result data.

Definition get_project_views (projectId : string) : M CallToolResult :=
  data <- executeGitHubGraphQL GetProjectViews_query
            (JObject [("id", JString projectId)]) ;;
  text_result data.

(** ** Input schemas (zod)

    A schema parses a JavaScript value ([undefined] when the key is
    missing) into a typed value or an issue.  The combinators follow the
    library: [z.string()], [z.number()], [z.boolean()], [z.enum([...])],
    [.min(n)], [.max(n)], [.optional()], [.default(v)]. *)

Inductive ZodIssue : Type :=
| invalid_type (expected received : string)
| invalid_enum_value (options : list string) (received : string)
| too_small (minimum : Q)
| too_big (maximum : Q).

Definition Schema (A : Type) : Type := jsval -> ZodIssue + A.

Definition z_string : Schema string :=
  fun v => match v with
           | Some (JString s) => inr s
           | _ => inl (invalid_type "string" (typeof v))
           end.

Definition z_number : Schema Q :=
  fun v => match v with
           | Some (JNumber q) => inr q
           | _ => inl (invalid_type "number" (typeof v))
           end.

Definition z_boolean : Schema bool :=
  fun v => match v with
           | Some (JBool b) => inr b
           | _ => inl (invalid_type "boolean" (typeof v))
           end.

(** The options of an enumeration as an issue names them:
    ['OPEN' | 'CLOSED' | 'ALL']. *)
Fixpoint join_values (options : list string) : string :=
  match options with
  | [] => ""
  | o :: rest =>
      "'" ++ o ++ "'" ++
      match rest with
      | [] => ""
      | _ => " | " ++ join_values rest
      end
  end.

Definition z_enum (options : list string) : Schema string :=
  fun v => match v with
           | Some (JString s) =>
               if existsb (String.eqb s) options then inr s
               else inl (invalid_enum_value options s)
           | _ => inl (invalid_type (join_values options) (typeof v))
           end.

(** [.min(n)]: the value may not be below [n]. *)
Definition z_min (n : Q) (s : Schema Q) : Schema Q :=
  fun v => match s v with
           | inr q => if Qle_bool n q then inr q else inl (too_small n)
           | inl i => inl i
           end.

(** [.max(n)]: the value may not be above [n]. *)
Definition z_max (n : Q) (s : Schema Q) : Schema Q :=
  fun v => match s v with
           | inr q => if Qle_bool q n then inr q else inl (too_big n)
           | inl i => inl i
           end.

Definition z_optional {A} (s : Schema A) : Schema (option A) :=
  fun v => match v with
           | None => inr None
           | Some _ => match s v with
                       | inr a => inr (Some a)
                       | inl i => inl i
                       end
           end.

Definition z_default {A} (s : Schema A) (d : A) : Schema A :=
  fun v => match v with
           | None => inr d
           | Some _ => s v
           end.

(** The issues of a failed parse, each with the key it belongs to. *)
Definition ZodError : Type := list (string * ZodIssue).

(** The arguments object of an invocation. *)
Definition Args : Type := list (string * json).

(** One key of the shape, parsed from the arguments object. *)
Definition key {A} (name : string) (s : Schema A) (args : Args) : ZodError + A :=
  match s (assoc name args) with
  | inr a => inr a
  | inl i => inl [(name, i)]
  end.

(** Keys are parsed one after the other and their issues collected. *)
Definition and_key {A B} (f : ZodError + (A -> B)) (x : ZodError + A)
  : ZodError + B :=
  match f, x with
  | inr f, inr a => inr (f a)
  | inr _, inl e => inl e
  | inl e, inr _ => inl e
  | inl e1, inl e2 => inl (e1 ++ e2)%list
  end.

Notation "f <*> x" := (and_key f x) (at level 50, left associativity).

(** ** Tool registry and dispatcher *)

(** The parsed arguments of the eight registered tools. *)
Inductive ToolCall : Type :=
| GetGithubProjects (organization : string)
| GetProjectDetails (projectId : string)
| GetRepositoryIssues (owner repo states : string) (first : Q)
| GetRepositoryPullRequests (owner repo states : string) (first : Q)
| AddItemToProject (organization projectName : string)
                   (projectId contentId title body : option string)
| UpdateProjectItemField (projectId itemId fieldId value : string)
| GetRepositories (owner : string) (isOrg : bool) (first : Q)
| GetProjectViews (projectId : string).

Definition first_schema : Schema Q :=
  z_default (z_max 100%Q (z_min 1%Q z_number)) 20%Q.

(** The second argument of each [server.tool(name, shape, callback)]. *)
Definition inputSchema (name : string) : option (Args -> ZodError + ToolCall) :=
  if name =? "get_github_projects" then Some (fun args =>
    inr GetGithubProjects <*> key "organization" z_string args)
  else if name =? "get_project_details" then Some (fun args =>
    inr GetProjectDetails <*> key "projectId" z_string args)
  else if name =? "get_repository_issues" then Some (fun args =>
    inr GetRepositoryIssues
      <*> key "owner" z_string args
      <*> key "repo" z_string args
      <*> key "states" (z_default (z_enum ["OPEN"; "CLOSED"; "ALL"]) "OPEN") args
      <*> key "first" first_schema args)
  else if name =? "get_repository_pull_requests" then Some (fun args =>
    inr GetRepositoryPullRequests
      <*> key "owner" z_string args
      <*> key "repo" z_string args
      <*> key "states"
            (z_default (z_enum ["OPEN"; "CLOSED"; "MERGED"; "ALL"]) "OPEN") args
      <*> key "first" first_schema args)
  else if name =? "add_item_to_project" then Some (fun args =>
    inr AddItemToProject
      <*> key "organization" z_string args
      <*> key "projectName" z_string args
      <*> key "projectId" (z_optional z_string) args
      <*> key "contentId" (z_optional z_string) args
      <*> key "title" (z_optional z_string) args
      <*> key "body" (z_optional z_string) args)
  else if name =? "update_project_item_field" then Some (fun args =>
    inr UpdateProjectItemField
      <*> key "projectId" z_string args
      <*> key "itemId" z_string args
      <*> key "fieldId" z_string args
      <*> key "value" z_string args)
  else if name =? "get_repositories" then Some (fun args =>
    inr GetRepositories
      <*> key "owner" z_string args
      <*> key "isOrg" (z_default z_boolean false) args
      <*> key "first" first_schema args)
  else if name =? "get_project_views" then Some (fun args =>
    inr GetProjectViews <*> key "projectId" z_string args)
  else None.

(** The third argument of each [server.tool(name, shape, callback)]. *)
Definition callback (c : ToolCall) : M CallToolResult :=
  match c with
  | GetGithubProjects organization => get_github_projects organization
  | GetProjectDetails projectId => get_project_details projectId
  | GetRepositoryIssues owner repo states first =>
      get_repository_issues owner repo states first
  | GetRepositoryPullRequests owner repo states first =>
      get_repository_pull_requests owner repo states first
  | AddItemToProject organization projectName projectId contentId title body =>
      add_item_to_project organization projectName projectId contentId title body
  | UpdateProjectItemField projectId itemId fieldId value =>
      update_project_item_field projectId itemId fieldId value
  | GetRepositories owner isOrg first => get_repositories owner isOrg first
  | GetProjectViews projectId => get_project_views projectId
  end.

(** How an invocation can fail at the server boundary. *)
Inductive DispatchError : Type :=
| UnknownTool (name : string)
| InvalidArguments (name : string) (issues : ZodError)
| CallbackThrew (e : JsError).

(** One tool invocation: look the tool up by name, parse the arguments
    against its shape, and only then run its callback. *)
Definition invoke (name : string) (args : Args) (rt : Runtime)
  : (DispatchError + CallToolResult) * Effects :=
  match inputSchema name with
  | None => (inl (UnknownTool name), no_effects)
  | Some parse =>
      match parse args with
      | inl issues => (inl (InvalidArguments name issues), no_effects)
      | inr c =>
          match run (callback c) rt with
          | (Return r, s) => (inr r, s)
          | (Throw e, s) => (inl (CallbackThrew e), s)
          end
      end
  end.

(** ** Vocabulary of the specification *)

(** The failures the code raises, under the names the specification uses. *)
Definition MissingCredential : JsError :=
  Error "GITHUB_TOKEN environment variable is not set".

Definition UpstreamError (status : Z) (body : string) : JsError :=
  Error ("GitHub API error (" ++ show_Z status ++ "): " ++ body).

Definition InvalidParameter_contentId_title : JsError :=
  Error "Either contentId or title must be provided".

(** The success envelope around a payload. *)
Definition envelope (rt : Runtime) (data : json) : CallToolResult :=
  {| content := [{| type := "text"; text := JSON_stringify rt data |}] |}.

(** Reading a transmitted request back. *)
Definition body_member (k : string) (r : Request) : jsval :=
  match body (init r) with
  | JObject ms => assoc k ms
  | _ => undefined
  end.

Definition transmitted_query (r : Request) : jsval := body_member "query" r.

Definition transmitted_variables (r : Request) : jsval :=
  body_member "variables" r.

Definition member (k : string) (v : jsval) : jsval :=
  match v with
  | Some (JObject ms) => assoc k ms
  | _ => undefined
  end.

(** [variables[k]] of a transmitted request. *)
Definition variable (k : string) (r : Request) : jsval :=
  member k (transmitted_variables r).

(** [variables.input[k]] of a transmitted mutation. *)
Definition input_field (k : string) (r : Request) : jsval :=
  member k (variable "input" r).

Definition sent_documents (s : Effects) : list jsval :=
  map transmitted_query (network s).

(** State changes made by the executor. *)
Definition sent (s : Effects) (req : Request) : Effects :=
  {| network := (network s ++ [req])%list; console := console s |}.

Definition logged (s : Effects) (e : JsError) : Effects :=
  {| network := network s;
     console := (console s ++ [console_error_line "GraphQL query error:" e])%list |}.

(** Every request of [l], sent after [before], was answered with a
    success status. *)
Fixpoint all_answered_ok (rt : Runtime) (before l : list Request) : bool :=
  match l with
  | [] => true
  | req :: rest =>
      match fetch rt before req with
      | Resolved r => ok r
      | Rejected _ => false
      end && all_answered_ok rt (before ++ [req])%list rest
  end.

(** Two invariants of a computation over the trace of requests.
    [answered rt m]: if every request sent before [m] was answered with a
    success status and [m] returns, so was every request sent by then.
    [silent rt m]: [m] sends nothing. *)
Definition answered {A} (rt : Runtime) (m : M A) : Prop :=
  forall s a s',
    m rt s = (Return a, s') ->
    all_answered_ok rt [] (network s) = true ->
    all_answered_ok rt [] (network s') = true.

Definition silent {A} (rt : Runtime) (m : M A) : Prop :=
  forall s, network (snd (m rt s)) = network s.

(** The body GitHub answers the project lookup with. *)
Definition lookup_payload (nodes : list json) : json :=
  JObject [("data",
    JObject [("organization",
      JObject [("projectsV2",
        JObject [("nodes", JArray nodes)])])])].

(** The request [getProjectId] sends. *)
Definition lookup_request (token organization projectName : string) : Request :=
  graphql_request token GetOrganizationProjectsByName_query
    (JObject [("org", JString organization);
              ("projectName", JString projectName)]).

(** An invocation whose callback gets as far as the executor: all of them,
    except an [add_item_to_project] that has a project identifier and
    neither a content identifier nor a title. *)
Definition reaches_executor (c : ToolCall) : bool :=
  match c with
  | AddItemToProject _ _ projectId contentId title _ =>
      negb (truthy projectId) || truthy contentId || truthy title
  | _ => true
  end.


(** The documents a callback is going to send, in order. *)
Definition documents (c : ToolCall) : list string :=
  match c with
  | GetGithubProjects _ => [GetOrganizationProjects_query]
  | GetProjectDetails _ => [GetProjectDetails_query]
  | GetRepositoryIssues _ _ _ _ => [GetRepositoryIssues_query]
  | GetRepositoryPullRequests _ _ _ _ => [GetRepositoryPullRequests_query]
  | AddItemToProject _ _ projectId contentId title _ =>
      ((if truthy projectId then [] else [GetOrganizationProjectsByName_query])
       ++ (if truthy contentId then [AddProjectItem_mutation]
           else if truthy title then [AddDraftIssue_mutation]
           else []))%list
  | UpdateProjectItemField _ _ _ _ => [UpdateProjectItemField_mutation]
  | GetRepositories _ isOrg _ =>
      [if isOrg then GetOrgRepos_query else GetUserRepos_query]
  | GetProjectViews _ => [GetProjectViews_query]
  end.

(** Two parsed calls choose their documents alike: the same tool, the same
    [isOrg], and the same of [projectId], [contentId] and [title] present
    and non-empty. *)
Definition same_selectors (c1 c2 : ToolCall) : bool :=
  match c1, c2 with
  | GetGithubProjects _, GetGithubProjects _ => true
  | GetProjectDetails _, GetProjectDetails _ => true
  | GetRepositoryIssues _ _ _ _, GetRepositoryIssues _ _ _ _ => true
  | GetRepositoryPullRequests _ _ _ _, GetRepositoryPullRequests _ _ _ _ => true
  | AddItemToProject _ _ p1 c1 t1 _, AddItemToProject _ _ p2 c2 t2 _ =>
      Bool.eqb (truthy p1) (truthy p2) && Bool.eqb (truthy c1) (truthy c2)
      && Bool.eqb (truthy t1) (truthy t2)
  | UpdateProjectItemField _ _ _ _, UpdateProjectItemField _ _ _ _ => true
  | GetRepositories _ o1 _, GetRepositories _ o2 _ => Bool.eqb o1 o2
  | GetProjectViews _, GetProjectViews _ => true
  | _, _ => false
  end.

(** The selectors the specification names: the tool and [isOrg]. *)
Definition same_tool_and_isOrg (c1 c2 : ToolCall) : bool :=
  match c1, c2 with
  | GetGithubProjects _, GetGithubProjects _ => true
  | GetProjectDetails _, GetProjectDetails _ => true
  | GetRepositoryIssues _ _ _ _, GetRepositoryIssues _ _ _ _ => true
  | GetRepositoryPullRequests _ _ _ _, GetRepositoryPullRequests _ _ _ _ => true
  | AddItemToProject _ _ _ _ _ _, AddItemToProject _ _ _ _ _ _ => true
  | UpdateProjectItemField _ _ _ _, UpdateProjectItemField _ _ _ _ => true
  | GetRepositories _ o1 _, GetRepositories _ o2 _ => Bool.eqb o1 o2
  | GetProjectViews _, GetProjectViews _ => true
  | _, _ => false
  end.

Definition is_prefix {A} (l1 l2 : list A) : Prop := exists t, l2 = (l1 ++ t)%list.

(** Documents as they read on the wire. *)
Definition wire (docs : list string) : list jsval :=
  map (fun d => Some (JString d)) docs.

(** The first statement of [add_item_to_project]: the project identifier
    the mutation is going to carry. *)
Definition resolved_projectId (organization projectName : string)
    (projectId : option string) : M jsval :=
  if negb (truthy projectId)
  then getProjectId organization projectName
  else ret (option_map JString projectId).

(** The document and variables [add_item_to_project] chooses, if any. *)
Definition chosen_mutation (projectId : jsval) (contentId title body : option string)
  : option (string * json) :=
  if truthy contentId then
    Some (AddProjectItem_mutation,
          JObject [("input",
                    JObject (object_literal
                               [("projectId", projectId);
                                ("contentId", option_map JString contentId)]))])
  else if truthy title then
    Some (AddDraftIssue_mutation,
          JObject [("input",
                    JObject (object_literal
                               [("projectId", projectId);
                                ("title", option_map JString title);
                                ("body", Some (JString (or_empty body)))]))])
  else None.

(** ** Example runtimes *)

Definition quote : string := String (ascii_of_nat 34) "".

(** A compact serializer for the example runtimes; it prints the integer
    part of a number. *)
Fixpoint print_json (v : json) : string :=
  match v with
  | JNull => "null"
  | JBool true => "true"
  | JBool false => "false"
  | JNumber q => show_Z (Qnum q / Zpos (Qden q))
  | JString s => quote ++ s ++ quote
  | JArray items =>
      "[" ++ (fix elements (l : list json) : string :=
                match l with
                | [] => ""
                | x :: rest =>
                    print_json x ++
                    match rest with [] => "" | _ => "," ++ elements rest end
                end) items ++ "]"
  | JObject ms =>
      "{" ++ (fix members (l : list (string * json)) : string :=
                match l with
                | [] => ""
                | (k, x) :: rest =>
                    quote ++ k ++ quote ++ ":" ++ print_json x ++
                    match rest with [] => "" | _ => "," ++ members rest end
                end) ms ++ "}"
  end.

(** A process with the given token (if any) talking to the given remote. *)
Definition runtime_of (token : option string)
    (remote : list Request -> Request -> FetchResult) : Runtime :=
  {| Deno_env_get := fun name => if name =? "GITHUB_TOKEN" then token else None;
     fetch := remote;
     JSON_stringify := print_json |}.

(** A remote that turns every call down with status 401. *)
Definition remote_unauthorized : list Request -> Request -> FetchResult :=
  fun _ _ =>
    Resolved {| status := 401;
                body_text := "Bad credentials";
                json_body := Throw (SyntaxError "Unexpected token") |}.

(** A remote that answers 200 with the given body. *)
Definition remote_answering (j : json) : list Request -> Request -> FetchResult :=
  fun _ _ =>
    Resolved {| status := 200; body_text := print_json j; json_body := Return j |}.

(** A remote that answers the first call with the project lookup result
    [nodes] and every later call with [j]. *)
Definition remote_with_projects (nodes : list json) (j : json)
  : list Request -> Request -> FetchResult :=
  fun before req =>
    match before with
    | [] => remote_answering (lookup_payload nodes) before req
    | _ => remote_answering j before req
    end.

(** A GraphQL answer with errors and no data. *)
Definition errors_only : json :=
  JObject [("errors",
            JArray [JObject [("message", JString "Could not resolve to a node")]])].

(** A project node of a lookup result. *)
Definition project_node (id title : string) : json :=
  JObject [("id", JString id); ("title", JString title)].

(** The answer to a successful item mutation. *)
Definition item_added : json :=
  JObject [("data",
    JObject [("addProjectV2ItemById",
      JObject [("item", JObject [("id", JString "PVTI_1")])])])].

(** ** Vocabulary for the rest of the code *)

(** The bearer credential as the executor sees it: an empty token is no
    token. *)
Definition credential (rt : Runtime) : option string :=
  match Deno_env_get rt "GITHUB_TOKEN" with
  | Some "" => None
  | t => t
  end.

(** The requests one call of the executor adds to the wire. *)
Definition wire_of_call (rt : Runtime) (query : string) (variables : json)
  : list Request :=
  match credential rt with
  | Some token => [graphql_request token query variables]
  | None => []
  end.

(** The console lines one call of the executor adds, given how it ended. *)
Definition log_of_call {A} (out : Outcome A) : list ConsoleLine :=
  match out with
  | Return _ => []
  | Throw e => [console_error_line "GraphQL query error:" e]
  end.

(** A request as the executor builds it from the process credential. *)
Definition from_executor (rt : Runtime) (req : Request) : Prop :=
  exists token query variables,
    credential rt = Some token /\
    url req = "https://api.github.com/graphql" /\
    method (init req) = "POST" /\
    headers (init req) =
      [("Authorization", "Bearer " ++ token);
       ("Content-Type", "application/json")] /\
    body (init req) =
      JObject [("query", JString query); ("variables", variables)].

(** The keys each tool's shape declares as plain [z.string()]. *)
Definition required_strings (name : string) : list string :=
  if name =? "get_github_projects" then ["organization"]
  else if name =? "get_project_details" then ["projectId"]
  else if name =? "get_repository_issues" then ["owner"; "repo"]
  else if name =? "get_repository_pull_requests" then ["owner"; "repo"]
  else if name =? "add_item_to_project" then ["organization"; "projectName"]
  else if name =? "update_project_item_field"
       then ["projectId"; "itemId"; "fieldId"; "value"]
  else if name =? "get_repositories" then ["owner"]
  else if name =? "get_project_views" then ["projectId"]
  else [].

(** The most calls a parsed invocation can make. *)
Definition call_budget (c : ToolCall) : nat :=
  match c with
  | AddItemToProject _ _ projectId _ _ _ => if truthy projectId then 1 else 2
  | _ => 1
  end.

(** The body GitHub answers [getCurrentUser] with. *)
Definition viewer_payload (login : json) : json :=
  JObject [("data",
    JObject [("viewer", JObject [("id", JString "U_1"); ("login", login)])])].

(** [keeps rt P m]: a property of the requests sent survives [m]. *)
Definition keeps {A} (rt : Runtime) (P : list Request -> Prop) (m : M A) : Prop :=
  forall s, P (network s) -> P (network (snd (m rt s))).

(** The name a parsed call was registered under. *)
Definition tool_name (c : ToolCall) : string :=
  match c with
  | GetGithubProjects _ => "get_github_projects"
  | GetProjectDetails _ => "get_project_details"
  | GetRepositoryIssues _ _ _ _ => "get_repository_issues"
  | GetRepositoryPullRequests _ _ _ _ => "get_repository_pull_requests"
  | AddItemToProject _ _ _ _ _ _ => "add_item_to_project"
  | UpdateProjectItemField _ _ _ _ => "update_project_item_field"
  | GetRepositories _ _ _ => "get_repositories"
  | GetProjectViews _ => "get_project_views"
  end.

(** A parse that failed with the issue [i] among its issues. *)
Definition fails_with {A} (i : string * ZodIssue) (r : ZodError + A) : Prop :=
  exists e, r = inl e /\ In i e.

(** * Properties *)

(** ** The executor, case by case *)

Lemma executeGitHubGraphQL_eq query variables rt s :
  executeGitHubGraphQL query variables rt s =
  match Deno_env_get rt "GITHUB_TOKEN" with
  | None | Some "" => (Throw MissingCredential, logged s MissingCredential)
  | Some token =>
      let req := graphql_request token query variables in
      match fetch rt (network s) req with
      | Rejected e => (Throw e, logged (sent s req) e)
      | Resolved r =>
          if ok r then
            match json_body r with
            | Return j => (Return j, sent s req)
            | Throw e => (Throw e, logged (sent s req) e)
            end
          else
            let e := UpstreamError (status r) (body_text r) in
            (Throw e, logged (sent s req) e)
      end
  end.
Proof.
  unfold executeGitHubGraphQL, try_catch, bind, env_get.
  destruct (Deno_env_get rt "GITHUB_TOKEN") as [[|c t]|]; try reflexivity.
  unfold await_fetch, graphql_request, sent, logged; cbn [network console].
  destruct (fetch rt (network s) _) as [e|r]; try reflexivity.
  destruct (ok r); reflexivity.
Qed.

Lemma all_answered_ok_app rt l : forall before req,
  all_answered_ok rt before (l ++ [req])%list =
  all_answered_ok rt before l &&
  match fetch rt (before ++ l)%list req with
  | Resolved r => ok r
  | Rejected _ => false
  end.
Proof.
  induction l as [|x l IH]; intros before req; cbn [all_answered_ok app].
  - rewrite app_nil_r, andb_true_r. reflexivity.
  - rewrite IH, <- app_assoc, andb_assoc. reflexivity.
Qed.

(** ** Rules for the two trace invariants *)

Lemma bind_Return_inv {A B} (m : M A) (k : A -> M B) rt s b s' :
  bind m k rt s = (Return b, s') ->
  exists a s1, m rt s = (Return a, s1) /\ k a rt s1 = (Return b, s').
Proof.
  unfold bind. destruct (m rt s) as [[a|e] s1]; intros H.
  - exists a, s1. split; [reflexivity | exact H].
  - discriminate H.
Qed.

Lemma answered_bind {A B} rt (m : M A) (k : A -> M B) :
  answered rt m -> (forall a, answered rt (k a)) -> answered rt (bind m k).
Proof.
  intros Hm Hk s b s' Hrun Hs.
  destruct (bind_Return_inv _ _ _ _ _ _ Hrun) as (a & s1 & H1 & H2).
  eapply Hk; [exact H2 | eapply Hm; eassumption].
Qed.

Lemma answered_pure {A} rt (m : M A) :
  (forall s, network (snd (m rt s)) = network s) -> answered rt m.
Proof.
  intros Hm s a s' Hrun Hs. specialize (Hm s). rewrite Hrun in Hm.
  cbn [snd] in Hm. rewrite Hm. exact Hs.
Qed.

Lemma answered_execute rt query variables :
  answered rt (executeGitHubGraphQL query variables).
Proof.
  intros s j s'. rewrite executeGitHubGraphQL_eq.
  destruct (Deno_env_get rt "GITHUB_TOKEN") as [[|c t]|]; try discriminate.
  cbv zeta.
  destruct (fetch rt (network s) _) as [e|r] eqn:Hfetch; try discriminate.
  destruct (ok r) eqn:Hok; try discriminate.
  destruct (json_body r); try discriminate.
  intros [= _ <-] Hs. unfold sent; cbn [network].
  rewrite all_answered_ok_app, Hs. cbn [app andb]. rewrite Hfetch. exact Hok.
Qed.

Lemma silent_bind {A B} rt (m : M A) (k : A -> M B) :
  silent rt m -> (forall a, silent rt (k a)) -> silent rt (bind m k).
Proof.
  intros Hm Hk s. unfold bind. specialize (Hm s).
  destruct (m rt s) as [[a|e] s1]; cbn [snd] in *.
  - rewrite Hk. exact Hm.
  - exact Hm.
Qed.

Lemma silent_execute rt query variables :
  truthy (Deno_env_get rt "GITHUB_TOKEN") = false ->
  silent rt (executeGitHubGraphQL query variables).
Proof.
  intros Htok s. rewrite executeGitHubGraphQL_eq.
  destruct (Deno_env_get rt "GITHUB_TOKEN") as [[|c t]|];
    try reflexivity; discriminate Htok.
Qed.

Lemma get_property_pure v k rt s : snd (get_property v k rt s) = s.
Proof. destruct v as [[| | | | |]|]; reflexivity. Qed.

Lemma get_first_pure v rt s : snd (get_first v rt s) = s.
Proof. destruct v as [[| | |[|]| |]|]; reflexivity. Qed.

Lemma text_result_eq data rt s :
  text_result data rt s = (Return (envelope rt data), s).
Proof. reflexivity. Qed.

Ltac invariant_steps :=
  repeat first
    [ apply answered_execute
    | apply answered_bind; [| intros ?]
    | apply answered_pure; intros;
      first [ rewrite get_property_pure; reflexivity
            | rewrite get_first_pure; reflexivity
            | reflexivity ] ].

Lemma answered_getProjectId rt organization projectName :
  answered rt (getProjectId organization projectName).
Proof. unfold getProjectId. invariant_steps. Qed.

Lemma answered_callback rt c : answered rt (callback c).
Proof.
  destruct c as [organization | projectId | owner repo states first | owner repo states first
                 | organization projectName projectId contentId title body
                 | projectId itemId fieldId value | owner isOrg first | projectId];
    cbn [callback];
    try (unfold get_github_projects, get_project_details, get_repository_issues,
           get_repository_pull_requests, update_project_item_field,
           get_repositories, get_project_views;
         cbv zeta; invariant_steps; fail).
  unfold add_item_to_project.
  apply answered_bind.
  - destruct (truthy projectId); cbn [negb].
    + invariant_steps.
    + apply answered_getProjectId.
  - intros pid. apply answered_bind.
    + destruct contentId as [[|c0 c]|], title as [[|t0 t]|]; invariant_steps.
    + intros [mutation variables]. invariant_steps.
Qed.

Lemma invoke_success_inv name args rt result s :
  invoke name args rt = (inr result, s) ->
  exists parse c,
    inputSchema name = Some parse /\ parse args = inr c /\
    run (callback c) rt = (Return result, s).
Proof.
  unfold invoke. destruct (inputSchema name) as [parse|]; [|discriminate].
  destruct (parse args) as [issues|c] eqn:Hparse; [discriminate|].
  destruct (run (callback c) rt) as [[r|e] s0] eqn:Hrun; [|discriminate].
  intros [= <- <-]. exists parse, c. auto.
Qed.

(** ** Absent credential *)

Lemma execute_without_token query variables rt s :
  truthy (Deno_env_get rt "GITHUB_TOKEN") = false ->
  executeGitHubGraphQL query variables rt s =
    (Throw MissingCredential, logged s MissingCredential).
Proof.
  intros Htok. rewrite executeGitHubGraphQL_eq.
  destruct (Deno_env_get rt "GITHUB_TOKEN") as [[|c t]|];
    try reflexivity; discriminate Htok.
Qed.

Ltac silent_steps Htok :=
  repeat first
    [ apply silent_execute; exact Htok
    | apply silent_bind; [| intros ?]
    | intros ?; first [ rewrite get_property_pure; reflexivity
                     | rewrite get_first_pure; reflexivity
                     | reflexivity ] ].

Lemma silent_callback rt c :
  truthy (Deno_env_get rt "GITHUB_TOKEN") = false -> silent rt (callback c).
Proof.
  intros Htok.
  destruct c as [organization | projectId | owner repo states first | owner repo states first
                 | organization projectName projectId contentId title body
                 | projectId itemId fieldId value | owner isOrg first | projectId];
    cbn [callback];
    try (unfold get_github_projects, get_project_details, get_repository_issues,
           get_repository_pull_requests, update_project_item_field,
           get_repositories, get_project_views;
         cbv zeta; silent_steps Htok; fail).
  unfold add_item_to_project.
  apply silent_bind.
  - destruct (truthy projectId); cbn [negb].
    + silent_steps Htok.
    + unfold getProjectId. silent_steps Htok.
  - intros pid. apply silent_bind.
    + destruct contentId as [[|c0 c]|], title as [[|t0 t]|]; silent_steps Htok.
    + intros [mutation variables]. silent_steps Htok.
Qed.

Lemma callback_without_token rt c :
  truthy (Deno_env_get rt "GITHUB_TOKEN") = false ->
  reaches_executor c = true ->
  fst (run (callback c) rt) = Throw MissingCredential.
Proof.
  intros Htok Hreach. unfold run.
  destruct c as [organization | projectId | owner repo states first | owner repo states first
                 | organization projectName projectId contentId title body
                 | projectId itemId fieldId value | owner isOrg first | projectId];
    cbn [callback];
    try (unfold get_github_projects, get_project_details, get_repository_issues,
           get_repository_pull_requests, update_project_item_field,
           get_repositories, get_project_views, bind;
         cbv zeta; rewrite execute_without_token by exact Htok; reflexivity).
  unfold add_item_to_project. cbn [reaches_executor] in Hreach.
  destruct (truthy projectId); cbn [negb orb] in Hreach |- *.
  - unfold bind at 1 2. cbn [ret].
    destruct contentId as [[|c0 c]|], title as [[|t0 t]|];
      try discriminate Hreach; cbn [ret]; unfold bind;
      rewrite execute_without_token by exact Htok; reflexivity.
  - unfold getProjectId, bind.
    rewrite execute_without_token by exact Htok. reflexivity.
Qed.

Lemma callback_stops_before_the_executor rt c :
  reaches_executor c = false ->
  run (callback c) rt = (Throw InvalidParameter_contentId_title, no_effects).
Proof.
  destruct c as [organization | projectId | owner repo states first
                 | owner repo states first
                 | organization projectName projectId contentId title body
                 | projectId itemId fieldId value | owner isOrg first | projectId];
    cbn [reaches_executor]; try discriminate.
  intros Hreach.
  apply orb_false_elim in Hreach as [Hreach Htitle].
  apply orb_false_elim in Hreach as [Hpid Hcontent].
  apply negb_false_iff in Hpid.
  cbn [callback].
  destruct projectId as [[|p0 p]|]; try discriminate Hpid.
  destruct contentId as [[|c0 c]|]; try discriminate Hcontent;
    destruct title as [[|t0 t]|]; try discriminate Htitle; reflexivity.
Qed.

(** C5, as it fails: with no credential in the environment, an
    [add_item_to_project] that has a project identifier and neither a
    content identifier nor a title passes validation and fails with the
    content-or-title error, not with the missing-credential error. *)
Lemma absent_credential_is_not_always_the_failure :
  let rt := runtime_of None remote_unauthorized in
  let args := [("organization", JString "acme");
               ("projectName", JString "Roadmap");
               ("projectId", JString "PVT_1")] in
  Deno_env_get rt "GITHUB_TOKEN" = None /\
  (exists parse,
      inputSchema "add_item_to_project" = Some parse /\
      parse args =
        inr (AddItemToProject "acme" "Roadmap" (Some "PVT_1") None None None)) /\
  invoke "add_item_to_project" args rt =
    (inl (CallbackThrew (Error "Either contentId or title must be provided")),
     no_effects) /\
  fst (invoke "add_item_to_project" args rt) <>
    inl (CallbackThrew MissingCredential).
Proof.
  intros rt args. split; [reflexivity | split; [| split]].
  - eexists. split; reflexivity.
  - reflexivity.
  - discriminate.
Qed.

(** C5, amended. With the bearer credential absent (or empty) in the
    process environment, an invocation of any tool issues no network call
    at all. Every invocation whose parsed arguments take the callback as
    far as the executor fails with the missing-credential error; the one
    kind that does not get that far, an [add_item_to_project] with a
    project identifier and neither a content identifier nor a title,
    fails with the content-or-title error instead. *)
Theorem absent_credential_fails_without_network rt name args :
  truthy (Deno_env_get rt "GITHUB_TOKEN") = false ->
  network (snd (invoke name args rt)) = [] /\
  (forall parse c,
      inputSchema name = Some parse -> parse args = inr c ->
      reaches_executor c = true ->
      fst (invoke name args rt) = inl (CallbackThrew MissingCredential)) /\
  (forall parse c,
      inputSchema name = Some parse -> parse args = inr c ->
      reaches_executor c = false ->
      invoke name args rt =
        (inl (CallbackThrew InvalidParameter_contentId_title), no_effects)).
Proof.
  intros Htok. split; [| split].
  - unfold invoke. destruct (inputSchema name) as [parse|]; [|reflexivity].
    destruct (parse args) as [issues|c]; [reflexivity|].
    pose proof (silent_callback rt c Htok no_effects) as Hsilent.
    unfold run. destruct (callback c rt no_effects) as [[r|e] s]; exact Hsilent.
  - intros parse c Hschema Hparse Hreach.
    pose proof (callback_without_token rt c Htok Hreach) as Hthrow.
    unfold invoke. rewrite Hschema, Hparse.
    destruct (run (callback c) rt) as [[r|e] s]; cbn [fst] in *.
    + discriminate Hthrow.
    + congruence.
  - intros parse c Hschema Hparse Hreach.
    unfold invoke. rewrite Hschema, Hparse.
    now rewrite (callback_stops_before_the_executor rt c Hreach).
Qed.

Lemma absent_credential_witness :
  let rt := runtime_of None remote_unauthorized in
  let args := [("organization", JString "acme")] in
  let bare := [("organization", JString "acme");
               ("projectName", JString "Roadmap");
               ("projectId", JString "PVT_1")] in
  truthy (Deno_env_get rt "GITHUB_TOKEN") = false /\
  network (snd (invoke "get_github_projects" args rt)) = [] /\
  fst (invoke "get_github_projects" args rt) = inl (CallbackThrew MissingCredential) /\
  invoke "add_item_to_project" bare rt =
    (inl (CallbackThrew InvalidParameter_contentId_title), no_effects).
Proof.
  intros rt args bare.
  destruct (absent_credential_fails_without_network rt "get_github_projects" args
              eq_refl) as (Hnet & Hfail & _).
  destruct (absent_credential_fails_without_network rt "add_item_to_project" bare
              eq_refl) as (_ & _ & Hstops).
  split; [reflexivity | split; [exact Hnet | split]].
  - apply (Hfail (fun a => inr GetGithubProjects <*> key "organization" z_string a)
                 (GetGithubProjects "acme"));
      reflexivity.
  - apply (Hstops
             (fun a => inr AddItemToProject
                         <*> key "organization" z_string a
                         <*> key "projectName" z_string a
                         <*> key "projectId" (z_optional z_string) a
                         <*> key "contentId" (z_optional z_string) a
                         <*> key "title" (z_optional z_string) a
                         <*> key "body" (z_optional z_string) a)
             (AddItemToProject "acme" "Roadmap" (Some "PVT_1") None None None));
      reflexivity.
Defined.

(** ** Non-success status *)

(** C6. When the remote answers a call of the executor with a status
    outside 200..299, the call throws the error whose message carries that
    status and the raw response body; and an invocation that produced the
    success envelope had every one of its calls answered with a success
    status. *)
Theorem non_success_status_raises_upstream_error :
  (forall rt token query variables s r,
      Deno_env_get rt "GITHUB_TOKEN" = Some token ->
      token <> "" ->
      fetch rt (network s) (graphql_request token query variables) = Resolved r ->
      ok r = false ->
      executeGitHubGraphQL query variables rt s =
        (Throw (UpstreamError (status r) (body_text r)),
         logged (sent s (graphql_request token query variables))
                (UpstreamError (status r) (body_text r))))
  /\
  (forall rt name args result s,
      invoke name args rt = (inr result, s) ->
      all_answered_ok rt [] (network s) = true).
Proof.
  split.
  - intros rt token query variables s r Htok Hne Hfetch Hok.
    rewrite executeGitHubGraphQL_eq, Htok.
    destruct token as [|c t]; [congruence|].
    cbv zeta. rewrite Hfetch, Hok. reflexivity.
  - intros rt name args result s Hinv.
    destruct (invoke_success_inv _ _ _ _ _ Hinv) as (parse & c & _ & _ & Hrun).
    exact (answered_callback rt c no_effects result s Hrun eq_refl).
Qed.

Lemma non_success_status_witness :
  let rt := runtime_of (Some "ghp_token") remote_unauthorized in
  let req := graphql_request "ghp_token" GetProjectViews_query
               (JObject [("id", JString "PVT_1")]) in
  executeGitHubGraphQL GetProjectViews_query (JObject [("id", JString "PVT_1")])
    rt no_effects =
    (Throw (Error "GitHub API error (401): Bad credentials"),
     logged (sent no_effects req)
            (Error "GitHub API error (401): Bad credentials")) /\
  fst (invoke "get_project_views" [("projectId", JString "PVT_1")] rt) =
    inl (CallbackThrew (Error "GitHub API error (401): Bad credentials")) /\
  let rt' := runtime_of (Some "ghp_token") (remote_answering errors_only) in
  all_answered_ok rt' [] [req] = true.
Proof.
  intros rt req. split; [| split].
  - apply (proj1 non_success_status_raises_upstream_error rt "ghp_token"
             GetProjectViews_query (JObject [("id", JString "PVT_1")])
             no_effects
             {| status := 401; body_text := "Bad credentials";
                json_body := Throw (SyntaxError "Unexpected token") |}).
    + reflexivity.
    + discriminate.
    + reflexivity.
    + reflexivity.
  - reflexivity.
  - intros rt'.
    apply (proj2 non_success_status_raises_upstream_error rt'
             "get_project_views" [("projectId", JString "PVT_1")]
             (envelope rt' errors_only)
             {| network := [req]; console := [] |}).
    reflexivity.
Defined.

(** ** Success status *)

Lemma execute_success rt token query variables s r j :
  Deno_env_get rt "GITHUB_TOKEN" = Some token ->
  token <> "" ->
  fetch rt (network s) (graphql_request token query variables) = Resolved r ->
  ok r = true ->
  json_body r = Return j ->
  executeGitHubGraphQL query variables rt s =
    (Return j, sent s (graphql_request token query variables)).
Proof.
  intros Htok Hne Hfetch Hok Hjson.
  rewrite executeGitHubGraphQL_eq, Htok.
  destruct token as [|c t]; [congruence|].
  cbv zeta. rewrite Hfetch, Hok, Hjson. reflexivity.
Qed.

(** C7. When the remote answers a call of the executor with a status in
    200..299 and a body that parses as JSON, the executor returns the
    parsed body itself, whatever it holds (an [errors] member just as
    well as [data]), nothing is logged, and the callbacks' wrapping puts
    the serialization of that same value into the envelope. *)
Theorem success_body_returned_verbatim rt token query variables s r j :
  Deno_env_get rt "GITHUB_TOKEN" = Some token ->
  token <> "" ->
  fetch rt (network s) (graphql_request token query variables) = Resolved r ->
  ok r = true ->
  json_body r = Return j ->
  executeGitHubGraphQL query variables rt s =
    (Return j, sent s (graphql_request token query variables)) /\
  bind (executeGitHubGraphQL query variables) text_result rt s =
    (Return (envelope rt j), sent s (graphql_request token query variables)).
Proof.
  intros Htok Hne Hfetch Hok Hjson.
  pose proof (execute_success rt token query variables s r j
                Htok Hne Hfetch Hok Hjson) as Hexec.
  split; [exact Hexec|].
  unfold bind. rewrite Hexec. apply text_result_eq.
Qed.

Lemma success_body_witness :
  let rt := runtime_of (Some "ghp_token") (remote_answering errors_only) in
  let variables := JObject [("id", JString "PVT_1")] in
  let req := graphql_request "ghp_token" GetProjectDetails_query variables in
  executeGitHubGraphQL GetProjectDetails_query variables rt no_effects =
    (Return errors_only, sent no_effects req) /\
  run (get_project_details "PVT_1") rt =
    (Return (envelope rt errors_only), sent no_effects req).
Proof.
  intros rt variables req.
  apply (success_body_returned_verbatim rt "ghp_token" GetProjectDetails_query
           variables no_effects
           {| status := 200; body_text := print_json errors_only;
              json_body := Return errors_only |} errors_only).
  - reflexivity.
  - discriminate.
  - reflexivity.
  - reflexivity.
  - reflexivity.
Defined.

(** ** What a call puts on the wire *)

Lemma execute_network rt token query variables s :
  Deno_env_get rt "GITHUB_TOKEN" = Some token ->
  token <> "" ->
  network (snd (executeGitHubGraphQL query variables rt s)) =
    (network s ++ [graphql_request token query variables])%list.
Proof.
  intros Htok Hne. rewrite executeGitHubGraphQL_eq, Htok.
  destruct token as [|c t]; [congruence|]. cbv zeta.
  destruct (fetch rt (network s) _) as [e|r]; [reflexivity|].
  destruct (ok r); [destruct (json_body r)|]; reflexivity.
Qed.

Lemma network_bind_silent {A B} rt (m : M A) (k : A -> M B) s :
  (forall a, silent rt (k a)) ->
  network (snd (bind m k rt s)) = network (snd (m rt s)).
Proof.
  intros Hk. unfold bind. destruct (m rt s) as [[a|e] s1]; cbn [snd].
  - apply Hk.
  - reflexivity.
Qed.

Lemma silent_text_result rt data : silent rt (text_result data).
Proof. intros s. reflexivity. Qed.

Lemma transmitted_query_graphql token query variables :
  transmitted_query (graphql_request token query variables) = Some (JString query).
Proof. reflexivity. Qed.

Lemma transmitted_variables_graphql token query variables :
  transmitted_variables (graphql_request token query variables) = Some variables.
Proof. reflexivity. Qed.

(** A callback that makes one call and wraps its result. *)
Lemma one_call_network rt token query variables :
  Deno_env_get rt "GITHUB_TOKEN" = Some token ->
  token <> "" ->
  network (snd (run (bind (executeGitHubGraphQL query variables) text_result) rt)) =
    [graphql_request token query variables].
Proof.
  intros Htok Hne. unfold run.
  rewrite network_bind_silent by (intros a; apply silent_text_result).
  rewrite (execute_network rt token) by assumption. reflexivity.
Qed.

(** ** Expansion of the state filter *)

(** C4. With a credential present, [get_repository_issues] and
    [get_repository_pull_requests] send exactly one call whose [states]
    variable is the list of all states of the entity when the argument is
    ["ALL"] and the one-element list of the argument otherwise. *)
Theorem states_ALL_expands_to_every_state rt token owner repo states first :
  Deno_env_get rt "GITHUB_TOKEN" = Some token ->
  token <> "" ->
  let issues :=
    network (snd (run (get_repository_issues owner repo states first) rt)) in
  let pulls :=
    network (snd (run (get_repository_pull_requests owner repo states first) rt)) in
  (states = "ALL" ->
     map (variable "states") issues =
       [Some (JArray [JString "OPEN"; JString "CLOSED"])] /\
     map (variable "states") pulls =
       [Some (JArray [JString "OPEN"; JString "CLOSED"; JString "MERGED"])]) /\
  (states <> "ALL" ->
     map (variable "states") issues = [Some (JArray [JString states])] /\
     map (variable "states") pulls = [Some (JArray [JString states])]).
Proof.
  intros Htok Hne issues pulls. subst issues pulls.
  unfold get_repository_issues, get_repository_pull_requests. cbv zeta.
  rewrite !(one_call_network rt token) by assumption.
  split.
  - intros ->. split; reflexivity.
  - intros Hstates. apply String.eqb_neq in Hstates. rewrite Hstates.
    split; reflexivity.
Qed.

Lemma states_ALL_witness :
  let rt := runtime_of (Some "ghp_token") (remote_answering errors_only) in
  map (variable "states")
      (network (snd (invoke "get_repository_issues"
                       [("owner", JString "acme"); ("repo", JString "site");
                        ("states", JString "ALL")] rt))) =
    [Some (JArray [JString "OPEN"; JString "CLOSED"])] /\
  map (variable "states")
      (network (snd (invoke "get_repository_pull_requests"
                       [("owner", JString "acme"); ("repo", JString "site");
                        ("states", JString "ALL")] rt))) =
    [Some (JArray [JString "OPEN"; JString "CLOSED"; JString "MERGED"])] /\
  map (variable "states")
      (network (snd (invoke "get_repository_pull_requests"
                       [("owner", JString "acme"); ("repo", JString "site");
                        ("states", JString "MERGED")] rt))) =
    [Some (JArray [JString "MERGED"])].
Proof.
  intros rt.
  destruct (states_ALL_expands_to_every_state rt "ghp_token" "acme" "site" "ALL"
              20%Q eq_refl ltac:(discriminate)) as [Hall _].
  destruct (Hall eq_refl) as [Hissues Hpulls].
  destruct (states_ALL_expands_to_every_state rt "ghp_token" "acme" "site" "MERGED"
              20%Q eq_refl ltac:(discriminate)) as [_ Hother].
  destruct (Hother ltac:(discriminate)) as [_ Hmerged].
  split; [exact Hissues | split; [exact Hpulls | exact Hmerged]].
Defined.

(** ** Range and default of [first] *)


Lemma and_key_inr_inv {A B} (f : ZodError + (A -> B)) (x : ZodError + A) b :
  f <*> x = inr b -> exists g a, f = inr g /\ x = inr a /\ b = g a.
Proof.
  destruct f as [e0|g], x as [e|a]; cbn [and_key]; try discriminate.
  intros [= <-]. exists g, a. auto.
Qed.


Lemma first_omitted args :
  assoc "first" args = None -> key "first" first_schema args = inr 20%Q.
Proof. intros Hfirst. unfold key, first_schema, z_default. now rewrite Hfirst. Qed.





(** ** Adding an item to a project *)

Lemma add_item_to_project_eq organization projectName projectId contentId title
    body rt s :
  add_item_to_project organization projectName projectId contentId title body rt s =
  match resolved_projectId organization projectName projectId rt s with
  | (Throw e, s1) => (Throw e, s1)
  | (Return p, s1) =>
      match chosen_mutation p contentId title body with
      | None => (Throw InvalidParameter_contentId_title, s1)
      | Some (mutation, variables) =>
          bind (executeGitHubGraphQL mutation variables) text_result rt s1
      end
  end.
Proof.
  unfold add_item_to_project, resolved_projectId. unfold bind at 1.
  destruct ((if negb (truthy projectId)
             then getProjectId organization projectName
             else ret (option_map JString projectId)) rt s) as [[p|e] s1];
    [|reflexivity].
  destruct contentId as [[|c0 c]|], title as [[|t0 t]|]; reflexivity.
Qed.

Lemma silent_property_chain rt (data : json) :
  silent rt (d <- get_property (Some data) "data" ;;
             o <- get_property d "organization" ;;
             p <- get_property o "projectsV2" ;;
             n <- get_property p "nodes" ;;
             node0 <- get_first n ;;
             get_property node0 "id").
Proof.
  repeat first
    [ apply silent_bind; [| intros ?]
    | intros ?; first [ rewrite get_property_pure; reflexivity
                     | rewrite get_first_pure; reflexivity ] ].
Qed.

Lemma getProjectId_network rt token organization projectName s :
  Deno_env_get rt "GITHUB_TOKEN" = Some token ->
  token <> "" ->
  network (snd (getProjectId organization projectName rt s)) =
    (network s ++ [lookup_request token organization projectName])%list.
Proof.
  intros Htok Hne. unfold getProjectId.
  rewrite network_bind_silent by (intros a; apply silent_property_chain).
  apply execute_network; assumption.
Qed.

Lemma getProjectId_found rt token organization projectName s r nodes :
  Deno_env_get rt "GITHUB_TOKEN" = Some token ->
  token <> "" ->
  fetch rt (network s) (lookup_request token organization projectName) = Resolved r ->
  ok r = true ->
  json_body r = Return (lookup_payload nodes) ->
  getProjectId organization projectName rt s =
    match nodes with
    | [] => (Throw (cannot_read "undefined" "id"),
             sent s (lookup_request token organization projectName))
    | node :: _ =>
        get_property (Some node) "id" rt
          (sent s (lookup_request token organization projectName))
    end.
Proof.
  intros Htok Hne Hfetch Hok Hjson.
  unfold getProjectId. unfold bind at 1.
  unfold lookup_request in *.
  rewrite (execute_success rt token _ _ s r _ Htok Hne Hfetch Hok Hjson).
  destruct nodes; reflexivity.
Qed.

Lemma resolved_projectId_given organization projectName projectId rt s :
  truthy projectId = true ->
  resolved_projectId organization projectName projectId rt s =
    (Return (option_map JString projectId), s).
Proof. intros H. unfold resolved_projectId. rewrite H. reflexivity. Qed.

Lemma resolved_projectId_looked_up organization projectName projectId rt s :
  truthy projectId = false ->
  resolved_projectId organization projectName projectId rt s =
    getProjectId organization projectName rt s.
Proof. intros H. unfold resolved_projectId. rewrite H. reflexivity. Qed.

(** C1, as the code has it. Without a project identifier, when the lookup
    is answered with an empty list of projects, the invocation fails
    after that one call and before any mutation call, but the failure is
    the [TypeError] of reading [id] off [undefined], not a not-found
    error. *)
Theorem empty_lookup_throws_TypeError rt token organization projectName projectId
    contentId title body r :
  Deno_env_get rt "GITHUB_TOKEN" = Some token ->
  token <> "" ->
  truthy projectId = false ->
  fetch rt [] (lookup_request token organization projectName) = Resolved r ->
  ok r = true ->
  json_body r = Return (lookup_payload []) ->
  run (add_item_to_project organization projectName projectId contentId title body)
      rt =
    (Throw (TypeError "Cannot read properties of undefined (reading 'id')"),
     {| network := [lookup_request token organization projectName];
        console := [] |}).
Proof.
  intros Htok Hne Hpid Hfetch Hok Hjson. unfold run.
  rewrite add_item_to_project_eq, resolved_projectId_looked_up by exact Hpid.
  rewrite (getProjectId_found rt token organization projectName no_effects r []
             Htok Hne Hfetch Hok Hjson).
  reflexivity.
Qed.

Lemma empty_lookup_witness :
  let rt := runtime_of (Some "ghp_token") (remote_with_projects [] item_added) in
  let failure :=
    TypeError "Cannot read properties of undefined (reading 'id')" in
  let done :=
    {| network := [lookup_request "ghp_token" "acme" "Roadmap"]; console := [] |} in
  run (add_item_to_project "acme" "Roadmap" None (Some "I_1") None None) rt =
    (Throw failure, done) /\
  invoke "add_item_to_project"
    [("organization", JString "acme"); ("projectName", JString "Roadmap");
     ("contentId", JString "I_1")] rt =
    (inl (CallbackThrew failure), done).
Proof.
  intros rt failure done. split.
  - apply (empty_lookup_throws_TypeError rt "ghp_token" "acme" "Roadmap" None
             (Some "I_1") None None
             {| status := 200;
                body_text := print_json (lookup_payload []);
                json_body := Return (lookup_payload []) |}).
    + reflexivity.
    + discriminate.
    + reflexivity.
    + reflexivity.
    + reflexivity.
    + reflexivity.
  - reflexivity.
Defined.

(** *** Neither a content identifier nor a title *)

Lemma chosen_mutation_none p contentId title body :
  truthy contentId = false -> truthy title = false ->
  chosen_mutation p contentId title body = None.
Proof. intros Hc Ht. unfold chosen_mutation. now rewrite Hc, Ht. Qed.

Lemma getProjectId_sends_at_most_the_lookup rt organization projectName :
  network (snd (run (getProjectId organization projectName) rt)) = [] \/
  exists token,
    network (snd (run (getProjectId organization projectName) rt)) =
      [lookup_request token organization projectName].
Proof.
  unfold run.
  destruct (Deno_env_get rt "GITHUB_TOKEN") as [[|c t]|] eqn:Htok.
  - left. unfold getProjectId.
    rewrite network_bind_silent by (intros a; apply silent_property_chain).
    apply silent_execute. now rewrite Htok.
  - right. exists (String c t).
    apply (getProjectId_network rt (String c t)); [exact Htok | discriminate].
  - left. unfold getProjectId.
    rewrite network_bind_silent by (intros a; apply silent_property_chain).
    apply silent_execute. now rewrite Htok.
Qed.

(** C2, as it fails: with a credential, no project identifier and
    neither a content identifier nor a title, the lookup call is sent
    first and only then does the invocation fail. *)
Lemma neither_given_lookup_is_sent_first :
  let rt := runtime_of (Some "ghp_token")
              (remote_with_projects [project_node "PVT_1" "Roadmap"] item_added) in
  let args := [("organization", JString "acme");
               ("projectName", JString "Roadmap")] in
  fst (invoke "add_item_to_project" args rt) =
    inl (CallbackThrew InvalidParameter_contentId_title) /\
  network (snd (invoke "add_item_to_project" args rt)) =
    [lookup_request "ghp_token" "acme" "Roadmap"] /\
  network (snd (invoke "add_item_to_project" args rt)) <> [].
Proof.
  intros rt args. split; [reflexivity | split; [reflexivity | discriminate]].
Qed.

(** C2, amended. With neither a content identifier nor a title, the
    invocation always fails and never sends a mutation. When a non-empty
    project identifier is given it fails at once with the
    content-or-title error and no network call. Otherwise the project
    lookup runs first: its own failure is the invocation's failure, its
    success is followed by the content-or-title error, and the lookup
    call is the only call that can have been sent. *)
Theorem neither_contentId_nor_title rt organization projectName projectId contentId
    title body :
  truthy contentId = false ->
  truthy title = false ->
  let result :=
    run (add_item_to_project organization projectName projectId contentId title
           body) rt in
  (exists e, fst result = Throw e) /\
  (truthy projectId = true ->
     result = (Throw InvalidParameter_contentId_title, no_effects)) /\
  (truthy projectId = false ->
     result =
       match run (getProjectId organization projectName) rt with
       | (Return _, s) => (Throw InvalidParameter_contentId_title, s)
       | (Throw e, s) => (Throw e, s)
       end /\
     (network (snd result) = [] \/
      exists token,
        network (snd result) = [lookup_request token organization projectName])).
Proof.
  intros Hc Ht result.
  assert (Hresult : result =
            match run (resolved_projectId organization projectName projectId) rt with
            | (Return _, s) => (Throw InvalidParameter_contentId_title, s)
            | (Throw e, s) => (Throw e, s)
            end).
  { subst result. unfold run. rewrite add_item_to_project_eq.
    destruct (resolved_projectId _ _ _ rt no_effects) as [[p|e] s1];
      [|reflexivity].
    now rewrite chosen_mutation_none. }
  split; [| split].
  - rewrite Hresult.
    destruct (run (resolved_projectId _ _ _) rt) as [[p|e] s1];
      cbn [fst]; eauto.
  - intros Hpid. rewrite Hresult. unfold run.
    now rewrite resolved_projectId_given.
  - intros Hpid.
    assert (Hlookup : result =
              match run (getProjectId organization projectName) rt with
              | (Return _, s) => (Throw InvalidParameter_contentId_title, s)
              | (Throw e, s) => (Throw e, s)
              end).
    { rewrite Hresult. unfold run.
      now rewrite resolved_projectId_looked_up. }
    split; [exact Hlookup|].
    pose proof (getProjectId_sends_at_most_the_lookup rt organization projectName)
      as Hsent.
    rewrite Hlookup.
    destruct (run (getProjectId organization projectName) rt) as [[p|e] s1];
      exact Hsent.
Qed.

Lemma neither_contentId_nor_title_witness :
  let rt := runtime_of (Some "ghp_token")
              (remote_with_projects [project_node "PVT_1" "Roadmap"] item_added) in
  run (add_item_to_project "acme" "Roadmap" (Some "PVT_1") None None None) rt =
    (Throw InvalidParameter_contentId_title, no_effects) /\
  run (add_item_to_project "acme" "Roadmap" None None (Some "") None) rt =
    (Throw InvalidParameter_contentId_title,
     sent no_effects (lookup_request "ghp_token" "acme" "Roadmap")).
Proof.
  intros rt. split.
  - apply (proj1 (proj2 (neither_contentId_nor_title rt "acme" "Roadmap"
                           (Some "PVT_1") None None None eq_refl eq_refl))).
    reflexivity.
  - destruct (proj2 (proj2 (neither_contentId_nor_title rt "acme" "Roadmap"
                              None None (Some "") None eq_refl eq_refl)) eq_refl)
      as [Hresult _].
    exact Hresult.
Defined.

(** *** Both a content identifier and a title *)

(** C3, as it fails: an empty [contentId] next to a title is supplied, yet
    the draft-issue mutation is what gets sent, title and body included. *)
Lemma empty_contentId_sends_the_draft :
  let rt := runtime_of (Some "ghp_token") (remote_answering item_added) in
  let args := [("organization", JString "acme");
               ("projectName", JString "Roadmap");
               ("projectId", JString "PVT_1");
               ("contentId", JString "");
               ("title", JString "Write the changelog")] in
  sent_documents (snd (invoke "add_item_to_project" args rt)) =
    [Some (JString AddDraftIssue_mutation)] /\
  map (input_field "title") (network (snd (invoke "add_item_to_project" args rt))) =
    [Some (JString "Write the changelog")] /\
  map (input_field "body") (network (snd (invoke "add_item_to_project" args rt))) =
    [Some (JString "")] /\
  AddDraftIssue_mutation <> AddProjectItem_mutation.
Proof.
  intros rt args.
  split; [reflexivity | split; [reflexivity | split; [reflexivity|]]].
  intros H. apply (f_equal String.length) in H. vm_compute in H. discriminate H.
Qed.

Lemma chosen_mutation_content p c0 c title body :
  chosen_mutation p (Some (String c0 c)) title body =
    Some (AddProjectItem_mutation,
          JObject [("input",
                    JObject (object_literal
                               [("projectId", p);
                                ("contentId", Some (JString (String c0 c)))]))]).
Proof. reflexivity. Qed.

(** C3, amended. When a non-empty content identifier is supplied, the
    title and the body play no part at all: the invocation is the one
    with both left out. Once the project identifier is settled, the one
    call that follows is the content-linking mutation with [projectId]
    and [contentId] as its input and neither [title] nor [body]; with a
    project identifier given, that call is the only one. If the lookup
    fails, so does the invocation. *)
Theorem contentId_takes_precedence rt token organization projectName projectId
    contentId title body :
  Deno_env_get rt "GITHUB_TOKEN" = Some token ->
  token <> "" ->
  contentId <> "" ->
  let item := add_item_to_project organization projectName projectId
                (Some contentId) in
  let link p :=
    graphql_request token AddProjectItem_mutation
      (JObject [("input",
                 JObject (object_literal
                            [("projectId", p);
                             ("contentId", Some (JString contentId))]))]) in
  (forall s, item title body rt s = item None None rt s) /\
  (forall p s1,
      run (resolved_projectId organization projectName projectId) rt
        = (Return p, s1) ->
      network (snd (run (item title body) rt)) = (network s1 ++ [link p])%list /\
      input_field "contentId" (link p) = Some (JString contentId) /\
      input_field "title" (link p) = None /\
      input_field "body" (link p) = None) /\
  (forall e s1,
      run (resolved_projectId organization projectName projectId) rt
        = (Throw e, s1) ->
      run (item title body) rt = (Throw e, s1)) /\
  (truthy projectId = true ->
     network (snd (run (item title body) rt)) =
       [link (option_map JString projectId)]).
Proof.
  intros Htok Hne Hc item link.
  destruct contentId as [|c0 c]; [congruence|].
  assert (Hsent : forall p s1,
             run (resolved_projectId organization projectName projectId) rt
               = (Return p, s1) ->
             network (snd (run (item title body) rt)) =
               (network s1 ++ [link p])%list).
  { intros p s1 Hp. subst item. unfold run in *.
    rewrite add_item_to_project_eq, Hp, chosen_mutation_content.
    rewrite network_bind_silent by (intros a; apply silent_text_result).
    apply execute_network; assumption. }
  split; [| split; [| split]].
  - intros s. subst item. rewrite !add_item_to_project_eq.
    destruct (resolved_projectId _ _ _ rt s) as [[p|e] s1]; reflexivity.
  - intros p s1 Hp. split; [exact (Hsent p s1 Hp)|].
    destruct p; repeat split; reflexivity.
  - intros e s1 He. subst item. unfold run in *.
    now rewrite add_item_to_project_eq, He.
  - intros Hpid.
    apply (Hsent (option_map JString projectId) no_effects).
    unfold run. now apply resolved_projectId_given.
Qed.

Lemma contentId_takes_precedence_witness :
  let rt := runtime_of (Some "ghp_token") (remote_answering item_added) in
  network (snd (run (add_item_to_project "acme" "Roadmap" (Some "PVT_1")
                       (Some "I_1") (Some "Write the changelog")
                       (Some "Before the release")) rt)) =
    [graphql_request "ghp_token" AddProjectItem_mutation
       (JObject [("input", JObject [("projectId", JString "PVT_1");
                                    ("contentId", JString "I_1")])])].
Proof.
  intros rt.
  apply (proj2 (proj2 (proj2
           (contentId_takes_precedence rt "ghp_token" "acme" "Roadmap"
              (Some "PVT_1") "I_1" (Some "Write the changelog")
              (Some "Before the release")
              eq_refl ltac:(discriminate) ltac:(discriminate))))).
  reflexivity.
Defined.

(** *** Which project the item goes to *)

(** C10. Without a project identifier, when the lookup is answered with a
    non-empty list of projects, the mutation that follows carries the
    [id] of the first node of that list, whatever the node's title is:
    nothing compares it with [projectName]. *)
Theorem first_lookup_node_is_used rt token organization projectName projectId
    contentId title body r members rest id :
  Deno_env_get rt "GITHUB_TOKEN" = Some token ->
  token <> "" ->
  truthy projectId = false ->
  truthy contentId || truthy title = true ->
  fetch rt [] (lookup_request token organization projectName) = Resolved r ->
  ok r = true ->
  json_body r = Return (lookup_payload (JObject members :: rest)) ->
  assoc "id" members = Some id ->
  exists req,
    network (snd (run (add_item_to_project organization projectName projectId
                         contentId title body) rt)) =
      [lookup_request token organization projectName; req] /\
    input_field "projectId" req = Some id /\
    (transmitted_query req = Some (JString AddProjectItem_mutation) \/
     transmitted_query req = Some (JString AddDraftIssue_mutation)).
Proof.
  intros Htok Hne Hpid Hgiven Hfetch Hok Hjson Hid. unfold run.
  rewrite add_item_to_project_eq, resolved_projectId_looked_up by exact Hpid.
  rewrite (getProjectId_found rt token organization projectName no_effects r _
             Htok Hne Hfetch Hok Hjson).
  cbn [get_property ret]. rewrite Hid.
  unfold chosen_mutation.
  destruct (truthy contentId) eqn:Hc.
  - eexists. split; [| split].
    + rewrite network_bind_silent by (intros a; apply silent_text_result).
      rewrite (execute_network rt token) by assumption. reflexivity.
    + reflexivity.
    + left. reflexivity.
  - cbn [orb] in Hgiven. rewrite Hgiven.
    eexists. split; [| split].
    + rewrite network_bind_silent by (intros a; apply silent_text_result).
      rewrite (execute_network rt token) by assumption. reflexivity.
    + reflexivity.
    + right. reflexivity.
Qed.

Lemma first_lookup_node_witness :
  let nodes := [project_node "PVT_7" "Roadmap 2019 (archived)";
                project_node "PVT_1" "Roadmap"] in
  let rt := runtime_of (Some "ghp_token") (remote_with_projects nodes item_added) in
  "Roadmap 2019 (archived)" <> "Roadmap" /\
  exists req,
    network (snd (run (add_item_to_project "acme" "Roadmap" None (Some "I_1")
                         None None) rt)) =
      [lookup_request "ghp_token" "acme" "Roadmap"; req] /\
    input_field "projectId" req = Some (JString "PVT_7") /\
    (transmitted_query req = Some (JString AddProjectItem_mutation) \/
     transmitted_query req = Some (JString AddDraftIssue_mutation)).
Proof.
  intros nodes rt. split; [discriminate|].
  apply (first_lookup_node_is_used rt "ghp_token" "acme" "Roadmap" None
           (Some "I_1") None None
           {| status := 200;
              body_text := print_json (lookup_payload nodes);
              json_body := Return (lookup_payload nodes) |}
           [("id", JString "PVT_7"); ("title", JString "Roadmap 2019 (archived)")]
           [project_node "PVT_1" "Roadmap"] (JString "PVT_7")).
  - reflexivity.
  - discriminate.
  - reflexivity.
  - reflexivity.
  - reflexivity.
  - reflexivity.
  - reflexivity.
  - reflexivity.
Defined.

(** ** Documents are fixed texts *)

Lemma is_prefix_nil {A} (l : list A) : is_prefix [] l.
Proof. exists l. reflexivity. Qed.

Lemma is_prefix_refl {A} (l : list A) : is_prefix l l.
Proof. exists []. now rewrite app_nil_r. Qed.

Lemma is_prefix_app {A} (l t : list A) : is_prefix l (l ++ t)%list.
Proof. exists t. reflexivity. Qed.

(** One call followed by code that sends nothing: either the credential
    is missing, nothing is sent and the whole fails, or the document is
    added to what was sent. *)
Lemma call_documents {B} rt query variables (k : json -> M B) s :
  (forall a, silent rt (k a)) ->
  let res := bind (executeGitHubGraphQL query variables) k rt s in
  (sent_documents (snd res) = sent_documents s /\ exists e, fst res = Throw e) \/
  sent_documents (snd res) = (sent_documents s ++ [Some (JString query)])%list.
Proof.
  intros Hk res. subst res.
  destruct (truthy (Deno_env_get rt "GITHUB_TOKEN")) eqn:Htok.
  - right. unfold sent_documents. rewrite network_bind_silent by exact Hk.
    destruct (Deno_env_get rt "GITHUB_TOKEN") as [[|c t]|] eqn:Henv;
      try discriminate Htok.
    rewrite (execute_network rt (String c t)); [| exact Henv | discriminate].
    rewrite map_app. reflexivity.
  - left. unfold bind. rewrite execute_without_token by exact Htok.
    cbn [fst snd]. split; [reflexivity | eauto].
Qed.

Lemma one_call_documents {B} rt query variables (k : json -> M B) :
  (forall a, silent rt (k a)) ->
  let res := run (bind (executeGitHubGraphQL query variables) k) rt in
  is_prefix (sent_documents (snd res)) (wire [query]) /\
  (forall r s, res = (Return r, s) -> sent_documents s = wire [query]).
Proof.
  intros Hk res. subst res. unfold run.
  destruct (call_documents rt query variables k no_effects Hk)
    as [[Hd [e He]] | Hd]; rewrite Hd; split.
  - apply is_prefix_nil.
  - intros r s Hres. rewrite Hres in He. discriminate He.
  - apply is_prefix_refl.
  - intros r s Hres. rewrite Hres in Hd. exact Hd.
Qed.

Lemma silent_log_and_wrap rt data :
  silent rt (console_log data ;; text_result data).
Proof. intros s. reflexivity. Qed.

Lemma add_item_documents rt organization projectName projectId contentId title body :
  let c := AddItemToProject organization projectName projectId contentId title
             body in
  let res := run (callback c) rt in
  is_prefix (sent_documents (snd res)) (wire (documents c)) /\
  (forall r s, res = (Return r, s) -> sent_documents s = wire (documents c)).
Proof.
  intros c res. subst c res. cbn [callback documents]. unfold run.
  rewrite add_item_to_project_eq.
  assert (Hmutation : forall p,
            (if truthy contentId then [AddProjectItem_mutation]
             else if truthy title then [AddDraftIssue_mutation] else []) =
            match chosen_mutation p contentId title body with
            | None => []
            | Some (mutation, _) => [mutation]
            end).
  { intros p. unfold chosen_mutation.
    destruct (truthy contentId); [reflexivity|].
    destruct (truthy title); reflexivity. }
  destruct (truthy projectId) eqn:Hpid.
  - rewrite resolved_projectId_given by exact Hpid. cbn [app].
    specialize (Hmutation (option_map JString projectId)).
    destruct (chosen_mutation _ contentId title body) as [[mutation variables]|].
    + rewrite Hmutation.
      apply (one_call_documents rt mutation variables text_result).
      intros a. apply silent_text_result.
    + rewrite Hmutation. split.
      * apply is_prefix_nil.
      * discriminate.
  - rewrite resolved_projectId_looked_up by exact Hpid.
    pose proof (call_documents rt GetOrganizationProjectsByName_query
                  (JObject [("org", JString organization);
                            ("projectName", JString projectName)])
                  _ no_effects (silent_property_chain rt)) as Hlookup.
    cbv zeta in Hlookup. fold (getProjectId organization projectName) in Hlookup.
    destruct (getProjectId organization projectName rt no_effects)
      as [[p|e] s1]; cbn [fst snd] in Hlookup.
    + destruct Hlookup as [[_ [e He]] | Hs1]; [discriminate He|].
      specialize (Hmutation p).
      destruct (chosen_mutation p contentId title body) as [[mutation variables]|].
      * rewrite Hmutation.
        destruct (call_documents rt mutation variables text_result s1
                    (silent_text_result rt)) as [[Hd [e He]] | Hd];
          rewrite Hd, Hs1; split.
        -- apply (is_prefix_app (wire [GetOrganizationProjectsByName_query])
                    (wire [mutation])).
        -- intros r s Hres. rewrite Hres in He. discriminate He.
        -- apply is_prefix_refl.
        -- intros r s Hres. rewrite Hres in Hd. cbn [snd] in Hd.
           rewrite Hd, Hs1. reflexivity.
      * rewrite Hmutation. cbn [snd]. rewrite Hs1. split.
        -- apply is_prefix_refl.
        -- discriminate.
    + split; [| discriminate]. cbn [snd].
      destruct Hlookup as [[-> _] | ->].
      * apply is_prefix_nil.
      * apply (is_prefix_app (wire [GetOrganizationProjectsByName_query])).
Qed.

Lemma callback_documents rt c :
  let res := run (callback c) rt in
  is_prefix (sent_documents (snd res)) (wire (documents c)) /\
  (forall r s, res = (Return r, s) -> sent_documents s = wire (documents c)).
Proof.
  destruct c as [organization | projectId | owner repo states first
                 | owner repo states first
                 | organization projectName projectId contentId title body
                 | projectId itemId fieldId value | owner isOrg first | projectId];
    try (cbn [callback documents];
         unfold get_github_projects, get_project_details, get_repository_issues,
           get_repository_pull_requests, get_repositories, get_project_views,
           update_project_item_field;
         cbv zeta; apply one_call_documents; intros a;
         first [apply silent_text_result | apply silent_log_and_wrap]).
  apply add_item_documents.
Qed.

Lemma same_selectors_documents c1 c2 :
  same_selectors c1 c2 = true -> documents c1 = documents c2.
Proof.
  destruct c1, c2; cbn [same_selectors documents];
    try discriminate; try reflexivity.
  - intros H. apply andb_prop in H as [H Ht]. apply andb_prop in H as [Hp Hc].
    apply eqb_prop in Hp, Hc, Ht. now rewrite Hp, Hc, Ht.
  - intros H. apply eqb_prop in H. now rewrite H.
Qed.

Lemma is_prefix_comparable {A} (l1 l2 l : list A) :
  is_prefix l1 l -> is_prefix l2 l -> is_prefix l1 l2 \/ is_prefix l2 l1.
Proof.
  revert l2 l. induction l1 as [|x l1 IH]; intros l2 l H1 H2.
  - left. apply is_prefix_nil.
  - destruct l2 as [|y l2]; [right; apply is_prefix_nil|].
    destruct H1 as [t1 ->]. destruct H2 as [t2 H2]. cbn [app] in H2.
    injection H2 as <- H2.
    destruct (IH l2 (l1 ++ t1)%list (is_prefix_app l1 t1) (ex_intro _ t2 H2))
      as [[t ->] | [t ->]].
    + left. exists t. reflexivity.
    + right. exists t. reflexivity.
Qed.

(** C9, as it fails: two argument sets of [add_item_to_project] that both
    pass validation and differ in string-valued arguments only (a content
    identifier in one, a title in the other) send different documents. *)
Lemma string_arguments_select_the_document :
  let rt := runtime_of (Some "ghp_token") (remote_answering item_added) in
  let shared := [("organization", JString "acme");
                 ("projectName", JString "Roadmap");
                 ("projectId", JString "PVT_1")] in
  let link := AddItemToProject "acme" "Roadmap" (Some "PVT_1") (Some "I_1")
                None None in
  let draft := AddItemToProject "acme" "Roadmap" (Some "PVT_1") None
                 (Some "Write the changelog") None in
  (exists parse,
      inputSchema "add_item_to_project" = Some parse /\
      parse (shared ++ [("contentId", JString "I_1")])%list = inr link /\
      parse (shared ++ [("title", JString "Write the changelog")])%list = inr draft) /\
  same_tool_and_isOrg link draft = true /\
  sent_documents (snd (run (callback link) rt)) = wire [AddProjectItem_mutation] /\
  sent_documents (snd (run (callback draft) rt)) = wire [AddDraftIssue_mutation] /\
  sent_documents (snd (run (callback link) rt)) <>
  sent_documents (snd (run (callback draft) rt)).
Proof.
  intros rt shared link draft.
  split; [| split; [| split; [| split]]].
  - eexists. split; [reflexivity|]. split; reflexivity.
  - reflexivity.
  - reflexivity.
  - reflexivity.
  - intros H. vm_compute in H. discriminate H.
Qed.

(** C9, amended. Which documents an invocation sends is decided by the
    tool, by [isOrg], and for [add_item_to_project] by which of
    [projectId], [contentId] and [title] are present and non-empty; the
    content of the string arguments plays no part. Two parsed calls that
    agree on these selectors have the same list of fixed document texts;
    what either of them transmits, in any runtime, is a prefix of that
    list, so one transmission is a prefix of the other, and when both
    invocations succeed the transmitted documents are the same. *)
Theorem documents_depend_on_selectors_only c1 c2 rt1 rt2 :
  same_selectors c1 c2 = true ->
  let sent1 := sent_documents (snd (run (callback c1) rt1)) in
  let sent2 := sent_documents (snd (run (callback c2) rt2)) in
  documents c1 = documents c2 /\
  is_prefix sent1 (wire (documents c1)) /\
  is_prefix sent2 (wire (documents c1)) /\
  (is_prefix sent1 sent2 \/ is_prefix sent2 sent1) /\
  (forall r1 s1 r2 s2,
      run (callback c1) rt1 = (Return r1, s1) ->
      run (callback c2) rt2 = (Return r2, s2) ->
      sent_documents s1 = sent_documents s2).
Proof.
  intros Hsame sent1 sent2. subst sent1 sent2.
  pose proof (same_selectors_documents c1 c2 Hsame) as Hdocs.
  destruct (callback_documents rt1 c1) as [Hpre1 Hall1].
  destruct (callback_documents rt2 c2) as [Hpre2 Hall2].
  cbv zeta in *. rewrite <- Hdocs in Hpre2, Hall2.
  split; [exact Hdocs|]. split; [exact Hpre1|]. split; [exact Hpre2|]. split.
  - exact (is_prefix_comparable _ _ _ Hpre1 Hpre2).
  - intros r1 s1 r2 s2 H1 H2.
    rewrite (Hall1 r1 s1 H1), (Hall2 r2 s2 H2). reflexivity.
Qed.

Lemma documents_depend_on_selectors_witness :
  let rt1 := runtime_of (Some "ghp_token") (remote_answering errors_only) in
  let rt2 := runtime_of (Some "ghp_other")
               (remote_with_projects [project_node "PVT_1" "Roadmap"] item_added) in
  let c1 := AddItemToProject "acme" "Roadmap" (Some "PVT_1") (Some "I_1")
              (Some "query { viewer { login } }") None in
  let c2 := AddItemToProject "initech" "Backlog" (Some "PVT_2") (Some "PR_9")
              (Some "Write the changelog") (Some "Before the release") in
  sent_documents (snd (run (callback c1) rt1)) =
  sent_documents (snd (run (callback c2) rt2)).
Proof.
  intros rt1 rt2 c1 c2.
  eapply (proj2 (proj2 (proj2 (proj2
            (documents_depend_on_selectors_only c1 c2 rt1 rt2 eq_refl))))).
  - reflexivity.
  - reflexivity.
Defined.

(** * The rest of the code *)

(** ** The executor's effects *)

Lemma credential_spec rt token :
  credential rt = Some token <->
  Deno_env_get rt "GITHUB_TOKEN" = Some token /\ token <> "".
Proof.
  unfold credential.
  destruct (Deno_env_get rt "GITHUB_TOKEN") as [[|c t]|]; split.
  - discriminate.
  - intros [[= <-] H]. congruence.
  - intros [= <-]. split; [reflexivity | discriminate].
  - intros [[= <-] _]. reflexivity.
  - discriminate.
  - intros [H _]. discriminate H.
Qed.

Lemma credential_None rt :
  credential rt = None <-> truthy (Deno_env_get rt "GITHUB_TOKEN") = false.
Proof.
  unfold credential.
  destruct (Deno_env_get rt "GITHUB_TOKEN") as [[|c t]|]; split;
    try reflexivity; discriminate.
Qed.

Lemma execute_wire query variables rt s :
  network (snd (executeGitHubGraphQL query variables rt s)) =
    (network s ++ wire_of_call rt query variables)%list.
Proof.
  unfold wire_of_call.
  destruct (credential rt) as [token|] eqn:Hcred.
  - apply credential_spec in Hcred as [Htok Hne].
    apply execute_network; assumption.
  - apply credential_None in Hcred.
    rewrite silent_execute by exact Hcred. now rewrite app_nil_r.
Qed.

(** X1. A call of the executor puts exactly one request on the wire when
    the process has a credential, whatever the remote then answers, and
    none when it has not; nothing already sent is changed and nothing is
    sent twice. *)
Theorem executor_sends_once query variables rt s :
  network (snd (executeGitHubGraphQL query variables rt s)) =
    (network s ++ wire_of_call rt query variables)%list.
Proof. apply execute_wire. Qed.

(** X2. The executor writes one [console.error] line, carrying the very
    error it rethrows, exactly when it throws; a call that returns leaves
    the console as it was. *)
Theorem executor_logs_what_it_throws query variables rt s :
  console (snd (executeGitHubGraphQL query variables rt s)) =
    (console s ++ log_of_call (fst (executeGitHubGraphQL query variables rt s)))%list.
Proof.
  rewrite executeGitHubGraphQL_eq.
  destruct (Deno_env_get rt "GITHUB_TOKEN") as [[|c t]|]; try reflexivity.
  cbv zeta. destruct (fetch rt (network s) _) as [e|r]; [reflexivity|].
  destruct (ok r); [destruct (json_body r)|]; cbn [fst snd log_of_call sent logged console];
    try reflexivity.
  now rewrite app_nil_r.
Qed.

(** X3. When [fetch] itself rejects (the network is down), the executor
    throws the rejection as it is, after the request has gone out and one
    line has been logged; whatever was to come after the call is
    skipped. *)
Theorem transport_failure_is_rethrown {B} rt token query variables s e
    (k : json -> M B) :
  credential rt = Some token ->
  fetch rt (network s) (graphql_request token query variables) = Rejected e ->
  executeGitHubGraphQL query variables rt s =
    (Throw e, logged (sent s (graphql_request token query variables)) e) /\
  bind (executeGitHubGraphQL query variables) k rt s =
    (Throw e, logged (sent s (graphql_request token query variables)) e).
Proof.
  intros Hcred Hfetch. apply credential_spec in Hcred as [Htok Hne].
  assert (Hexec : executeGitHubGraphQL query variables rt s =
            (Throw e, logged (sent s (graphql_request token query variables)) e)).
  { rewrite executeGitHubGraphQL_eq, Htok.
    destruct token as [|c t]; [congruence|]. cbv zeta. now rewrite Hfetch. }
  split; [exact Hexec|]. unfold bind. now rewrite Hexec.
Qed.

Lemma transport_failure_witness :
  let down := fun (_ : list Request) (_ : Request) =>
                Rejected (TypeError "error sending request") in
  let rt := runtime_of (Some "ghp_token") down in
  run (get_project_views "PVT_1") rt =
    (Throw (TypeError "error sending request"),
     logged (sent no_effects
               (graphql_request "ghp_token" GetProjectViews_query
                  (JObject [("id", JString "PVT_1")])))
            (TypeError "error sending request")).
Proof.
  intros down rt.
  apply (proj2 (transport_failure_is_rethrown rt "ghp_token" GetProjectViews_query
                  (JObject [("id", JString "PVT_1")]) no_effects
                  (TypeError "error sending request") text_result
                  eq_refl eq_refl)).
Defined.

(** X4. A success status is not enough: when the body of a 2xx answer
    does not parse as JSON, the executor throws the error of
    [response.json()], logs it, and no envelope is made. *)
Theorem unparsable_success_body_throws {B} rt token query variables s r e
    (k : json -> M B) :
  credential rt = Some token ->
  fetch rt (network s) (graphql_request token query variables) = Resolved r ->
  ok r = true ->
  json_body r = Throw e ->
  executeGitHubGraphQL query variables rt s =
    (Throw e, logged (sent s (graphql_request token query variables)) e) /\
  bind (executeGitHubGraphQL query variables) k rt s =
    (Throw e, logged (sent s (graphql_request token query variables)) e).
Proof.
  intros Hcred Hfetch Hok Hjson. apply credential_spec in Hcred as [Htok Hne].
  assert (Hexec : executeGitHubGraphQL query variables rt s =
            (Throw e, logged (sent s (graphql_request token query variables)) e)).
  { rewrite executeGitHubGraphQL_eq, Htok.
    destruct token as [|c t]; [congruence|]. cbv zeta.
    now rewrite Hfetch, Hok, Hjson. }
  split; [exact Hexec|]. unfold bind. now rewrite Hexec.
Qed.

Lemma unparsable_success_body_witness :
  let gateway := fun (_ : list Request) (_ : Request) =>
                   Resolved {| status := 200;
                               body_text := "<html>Bad gateway</html>";
                               json_body := Throw (SyntaxError "Unexpected token <") |} in
  let rt := runtime_of (Some "ghp_token") gateway in
  fst (run (get_github_projects "acme") rt) =
    Throw (SyntaxError "Unexpected token <").
Proof.
  intros gateway rt.
  destruct (unparsable_success_body_throws rt "ghp_token"
              GetOrganizationProjects_query
              (JObject [("org", JString "acme")]) no_effects
              {| status := 200;
                 body_text := "<html>Bad gateway</html>";
                 json_body := Throw (SyntaxError "Unexpected token <") |}
              (SyntaxError "Unexpected token <") text_result
              eq_refl eq_refl eq_refl eq_refl) as [_ Hrun].
  exact (f_equal fst Hrun).
Defined.

(** ** Every request comes from the executor *)

Lemma keeps_bind {A B} rt P (m : M A) (k : A -> M B) :
  keeps rt P m -> (forall a, keeps rt P (k a)) -> keeps rt P (bind m k).
Proof.
  intros Hm Hk s Hs. unfold bind. specialize (Hm s Hs).
  destruct (m rt s) as [[a|e] s1]; cbn [snd] in *.
  - apply Hk. exact Hm.
  - exact Hm.
Qed.

Lemma keeps_silent {A} rt P (m : M A) : silent rt m -> keeps rt P m.
Proof. intros Hm s Hs. now rewrite Hm. Qed.

Lemma keeps_execute rt (P : list Request -> Prop) query variables :
  (forall l q v, P l -> P (l ++ wire_of_call rt q v)%list) ->
  keeps rt P (executeGitHubGraphQL query variables).
Proof.
  intros HP s Hs. unfold wire_of_call in HP. specialize (HP (network s) query variables Hs).
  destruct (credential rt) as [token|] eqn:Hcred.
  - apply credential_spec in Hcred as [Htok Hne].
    rewrite (execute_network rt token) by assumption. exact HP.
  - apply credential_None in Hcred. now rewrite silent_execute.
Qed.

Ltac keeps_steps HP :=
  repeat first
    [ apply keeps_execute; exact HP
    | apply keeps_bind; [| intros ?]
    | apply keeps_silent; intros ?;
      first [ rewrite get_property_pure; reflexivity
            | rewrite get_first_pure; reflexivity
            | reflexivity ] ].

Lemma keeps_callback rt (P : list Request -> Prop) c :
  (forall l q v, P l -> P (l ++ wire_of_call rt q v)%list) ->
  keeps rt P (callback c).
Proof.
  intros HP.
  destruct c as [organization | projectId | owner repo states first
                 | owner repo states first
                 | organization projectName projectId contentId title body
                 | projectId itemId fieldId value | owner isOrg first | projectId];
    cbn [callback];
    try (unfold get_github_projects, get_project_details, get_repository_issues,
           get_repository_pull_requests, update_project_item_field,
           get_repositories, get_project_views;
         cbv zeta; keeps_steps HP; fail).
  unfold add_item_to_project.
  apply keeps_bind.
  - destruct (truthy projectId); cbn [negb].
    + keeps_steps HP.
    + unfold getProjectId. keeps_steps HP.
  - intros pid. apply keeps_bind.
    + destruct contentId as [[|c0 c]|], title as [[|t0 t]|]; keeps_steps HP.
    + intros [mutation variables]. keeps_steps HP.
Qed.

Lemma invoke_network_cases name args rt :
  network (snd (invoke name args rt)) = [] \/
  exists c, network (snd (invoke name args rt)) = network (snd (run (callback c) rt)) /\
            exists parse, inputSchema name = Some parse /\ parse args = inr c.
Proof.
  unfold invoke. destruct (inputSchema name) as [parse|]; [|now left].
  destruct (parse args) as [issues|c] eqn:Hparse; [now left|].
  right. exists c. split; [|eauto].
  destruct (run (callback c) rt) as [[r|e] s]; reflexivity.
Qed.

(** X5. Whatever tool is invoked with whatever arguments, every request
    that leaves the process is built by the executor: a POST to the one
    GraphQL endpoint, with the process's own non-empty token as bearer
    authorization, a JSON content type, and a body holding a query and
    its variables. *)
Theorem every_request_comes_from_the_executor name args rt req :
  In req (network (snd (invoke name args rt))) ->
  from_executor rt req.
Proof.
  assert (Hall : forall c,
             Forall (from_executor rt) (network (snd (run (callback c) rt)))).
  { intros c. apply (keeps_callback rt (Forall (from_executor rt)) c);
      [| constructor].
    intros l q v Hl. apply Forall_app. split; [exact Hl|].
    unfold wire_of_call. destruct (credential rt) as [token|] eqn:Hcred;
      constructor; [| constructor].
    exists token, q, v. repeat split; (exact Hcred || reflexivity). }
  destruct (invoke_network_cases name args rt) as [-> | (c & -> & _)].
  - intros [].
  - intros Hin. exact (proj1 (Forall_forall _ _) (Hall c) req Hin).
Qed.

Lemma every_request_witness :
  let rt := runtime_of (Some "ghp_token")
              (remote_with_projects [project_node "PVT_1" "Roadmap"] item_added) in
  from_executor rt
    (graphql_request "ghp_token" AddProjectItem_mutation
       (JObject [("input", JObject [("projectId", JString "PVT_1");
                                    ("contentId", JString "I_1")])])).
Proof.
  intros rt.
  apply (every_request_comes_from_the_executor "add_item_to_project"
           [("organization", JString "acme"); ("projectName", JString "Roadmap");
            ("contentId", JString "I_1")] rt).
  right. left. reflexivity.
Defined.

(** ** How many calls an invocation makes *)

Lemma is_prefix_length {A} (l1 l2 : list A) :
  is_prefix l1 l2 -> length l1 <= length l2.
Proof. intros [t ->]. rewrite length_app. lia. Qed.

Lemma documents_within_budget c : length (documents c) <= call_budget c.
Proof.
  destruct c; cbn [documents call_budget length]; try lia.
  rewrite length_app.
  destruct (truthy projectId), (truthy contentId), (truthy title);
    cbn [length]; lia.
Qed.

Ltac invert_keys :=
  repeat match goal with
         | H : _ <*> _ = inr _ |- _ =>
             let g := fresh "g" in
             let a := fresh "a" in
             let Hg := fresh "Hg" in
             let Ha := fresh "Ha" in
             apply and_key_inr_inv in H as (g & a & Hg & Ha & ->)
         | H : inr _ = inr _ |- _ => injection H as <-
         end.

Lemma registered_shape (shape parse : Args -> ZodError + ToolCall) :
  Some shape = Some parse -> forall args, parse args = shape args.
Proof. intros [= ->] args. reflexivity. Qed.

Lemma parsed_tool name parse args c :
  inputSchema name = Some parse -> parse args = inr c -> tool_name c = name.
Proof.
  unfold inputSchema.
  repeat match goal with
         | |- (if ?n =? ?lit then _ else _) = _ -> _ =>
             destruct (String.eqb_spec n lit) as [->|_];
             [cbv iota; intros Hschema Hparse;
              rewrite (registered_shape _ _ Hschema) in Hparse;
              invert_keys; reflexivity|]
         end.
  discriminate.
Qed.

(** X6. An invocation never makes more than two calls, and only
    [add_item_to_project] without a usable project identifier can make
    two: every other parsed call makes at most one. Nothing is retried. *)
Theorem invocation_stays_within_call_budget name args rt :
  length (network (snd (invoke name args rt))) <= 2 /\
  (name <> "add_item_to_project" ->
   length (network (snd (invoke name args rt))) <= 1) /\
  (forall c, length (network (snd (run (callback c) rt))) <= call_budget c).
Proof.
  assert (Hbudget : forall c,
             length (network (snd (run (callback c) rt))) <= call_budget c).
  { intros c. destruct (callback_documents rt c) as [Hpre _]. cbv zeta in Hpre.
    apply is_prefix_length in Hpre. unfold sent_documents, wire in Hpre.
    rewrite !length_map in Hpre.
    pose proof (documents_within_budget c). lia. }
  split; [| split; [| exact Hbudget]].
  - destruct (invoke_network_cases name args rt) as [-> | (c & -> & _)].
    + cbn [length]. lia.
    + specialize (Hbudget c). destruct c; cbn [call_budget] in Hbudget; try lia.
      destruct (truthy projectId); lia.
  - intros Hname.
    destruct (invoke_network_cases name args rt)
      as [-> | (c & -> & parse & Hschema & Hparse)].
    + cbn [length]. lia.
    + specialize (Hbudget c).
      pose proof (parsed_tool name parse args c Hschema Hparse) as Htool.
      destruct c; cbn [call_budget tool_name] in *; try lia.
      congruence.
Qed.

Lemma call_budget_witness :
  let rt := runtime_of (Some "ghp_token") (remote_answering errors_only) in
  length (network (snd (invoke "get_project_views"
                          [("projectId", JString "PVT_1")] rt))) <= 1.
Proof.
  intros rt.
  apply (proj1 (proj2 (invocation_stays_within_call_budget "get_project_views"
                         [("projectId", JString "PVT_1")] rt))).
  discriminate.
Defined.

(** ** Argument validation, tool by tool *)

Create HintDb zod.

Lemma fails_left {A B} i (f : ZodError + (A -> B)) (x : ZodError + A) :
  fails_with i f -> fails_with i (f <*> x).
Proof.
  intros (e & -> & Hin). destruct x as [e'|a]; cbn [and_key].
  - exists (e ++ e')%list. split; [reflexivity|]. apply in_or_app. now left.
  - exists e. auto.
Qed.

Lemma fails_right {A B} i (f : ZodError + (A -> B)) (x : ZodError + A) :
  fails_with i x -> fails_with i (f <*> x).
Proof.
  intros (e & -> & Hin). destruct f as [e'|g]; cbn [and_key].
  - exists (e' ++ e)%list. split; [reflexivity|]. apply in_or_app. now right.
  - exists e. auto.
Qed.

Lemma fails_key {A} k (s : Schema A) args i :
  s (assoc k args) = inl i -> fails_with (k, i) (key k s args).
Proof.
  intros H. unfold key. rewrite H. exists [(k, i)]. split; [reflexivity|].
  now left.
Qed.

Lemma z_string_rejects v :
  (forall s, v <> Some (JString s)) ->
  z_string v = inl (invalid_type "string" (typeof v)).
Proof.
  intros H. destruct v as [[| | | s | |]|]; try reflexivity.
  now contradiction (H s).
Qed.

Lemma fails_key_string k args :
  (forall s, assoc k args <> Some (JString s)) ->
  fails_with (k, invalid_type "string" (typeof (assoc k args)))
             (key k z_string args).
Proof. intros H. apply fails_key. now apply z_string_rejects. Qed.

#[local] Hint Resolve fails_left fails_right fails_key_string : zod.

Lemma invoke_fails name parse args rt i :
  inputSchema name = Some parse ->
  fails_with i (parse args) ->
  exists issues,
    invoke name args rt = (inl (InvalidArguments name issues), no_effects) /\
    In i issues.
Proof.
  intros Hschema (e & He & Hin). exists e. split; [|exact Hin].
  unfold invoke. now rewrite Hschema, He.
Qed.

(** X7. For each of the eight tools, every argument its shape declares as
    a plain string is required: when it is missing, [null], or anything
    but a string, the invocation fails validation with a type issue on
    that very key, whatever the other arguments are, and the callback
    never runs (no network call, no console line). *)
Theorem required_string_arguments_are_enforced name k args rt :
  In k (required_strings name) ->
  (forall s, assoc k args <> Some (JString s)) ->
  exists issues,
    invoke name args rt = (inl (InvalidArguments name issues), no_effects) /\
    In (k, invalid_type "string" (typeof (assoc k args))) issues.
Proof.
  intros Hin Hnot.
  assert (exists parse,
             inputSchema name = Some parse /\
             fails_with (k, invalid_type "string" (typeof (assoc k args)))
                        (parse args)) as (parse & Hschema & Hfails).
  { revert Hin. unfold required_strings.
    repeat match goal with
           | |- In _ (if ?n =? ?lit then _ else _) -> _ =>
               destruct (String.eqb_spec n lit) as [->|_];
               [cbv iota; intros Hin; eexists; split; [reflexivity|];
                cbv beta;
                repeat (destruct Hin as [<-|Hin]; [eauto 8 with zod|]);
                destruct Hin|]
           end.
    intros []. }
  exact (invoke_fails name parse args rt _ Hschema Hfails).
Qed.

Lemma required_string_witness :
  let rt := runtime_of (Some "ghp_token") (remote_answering errors_only) in
  exists issues,
    invoke "update_project_item_field"
      [("projectId", JString "PVT_1"); ("itemId", JString "PVTI_1");
       ("fieldId", JNull)] rt =
      (inl (InvalidArguments "update_project_item_field" issues), no_effects) /\
    In ("value", invalid_type "string" "undefined") issues.
Proof.
  intros rt.
  apply (required_string_arguments_are_enforced "update_project_item_field"
           "value"
           [("projectId", JString "PVT_1"); ("itemId", JString "PVTI_1");
            ("fieldId", JNull)] rt).
  - simpl. tauto.
  - intros s. discriminate.
Defined.

Lemma z_enum_rejects options s :
  ~ In s options ->
  z_enum options (Some (JString s)) = inl (invalid_enum_value options s).
Proof.
  intros Hnot. unfold z_enum.
  destruct (existsb (String.eqb s) options) eqn:Hex; [|reflexivity].
  apply existsb_exists in Hex as (o & Hin & Heq).
  apply String.eqb_eq in Heq. subst o. contradiction.
Qed.

Lemma z_enum_accepts options v s :
  z_enum options v = inr s -> v = Some (JString s) /\ In s options.
Proof.
  unfold z_enum. destruct v as [[| | | s' | |]|]; try discriminate.
  destruct (existsb (String.eqb s') options) eqn:Hex; [|discriminate].
  intros [= <-]. split; [reflexivity|].
  apply existsb_exists in Hex as (o & Hin & Heq).
  apply String.eqb_eq in Heq. now subst o.
Qed.

(** X8. The state filter is a closed enumeration, different for the two
    tools: a [states] string outside OPEN, CLOSED, ALL fails the
    validation of [get_repository_issues] (MERGED included), and one
    outside OPEN, CLOSED, MERGED, ALL fails that of
    [get_repository_pull_requests]; no call is made. *)
Theorem states_outside_the_enumeration_are_rejected args rt s :
  assoc "states" args = Some (JString s) ->
  (~ In s ["OPEN"; "CLOSED"; "ALL"] ->
   exists issues,
     invoke "get_repository_issues" args rt =
       (inl (InvalidArguments "get_repository_issues" issues), no_effects) /\
     In ("states", invalid_enum_value ["OPEN"; "CLOSED"; "ALL"] s) issues) /\
  (~ In s ["OPEN"; "CLOSED"; "MERGED"; "ALL"] ->
   exists issues,
     invoke "get_repository_pull_requests" args rt =
       (inl (InvalidArguments "get_repository_pull_requests" issues), no_effects) /\
     In ("states", invalid_enum_value ["OPEN"; "CLOSED"; "MERGED"; "ALL"] s) issues).
Proof.
  intros Hstates. split; intros Hnot.
  - eapply invoke_fails; [reflexivity|]. cbv beta.
    apply fails_left, fails_right, fails_key.
    unfold z_default. rewrite Hstates. now apply z_enum_rejects.
  - eapply invoke_fails; [reflexivity|]. cbv beta.
    apply fails_left, fails_right, fails_key.
    unfold z_default. rewrite Hstates. now apply z_enum_rejects.
Qed.

Lemma states_enumeration_witness :
  let rt := runtime_of (Some "ghp_token") (remote_answering errors_only) in
  let args := [("owner", JString "acme"); ("repo", JString "site");
               ("states", JString "MERGED")] in
  exists issues,
    invoke "get_repository_issues" args rt =
      (inl (InvalidArguments "get_repository_issues" issues), no_effects) /\
    In ("states", invalid_enum_value ["OPEN"; "CLOSED"; "ALL"] "MERGED") issues.
Proof.
  intros rt args.
  apply (proj1 (states_outside_the_enumeration_are_rejected args rt "MERGED"
                  eq_refl)).
  simpl. intros [H|[H|[H|[]]]]; discriminate H.
Defined.

Lemma one_call_wire {B} rt query variables (k : json -> M B) :
  (forall a, silent rt (k a)) ->
  network (snd (run (bind (executeGitHubGraphQL query variables) k) rt)) =
    wire_of_call rt query variables.
Proof.
  intros Hk. unfold run. rewrite network_bind_silent by exact Hk.
  now rewrite execute_wire.
Qed.

Lemma in_wire_of_call rt query variables req :
  In req (wire_of_call rt query variables) ->
  exists token, credential rt = Some token /\
                req = graphql_request token query variables.
Proof.
  unfold wire_of_call. destruct (credential rt) as [token|]; [|intros []].
  intros [<-|[]]. eauto.
Qed.

Lemma key_inr {A} k (s : Schema A) args a :
  key k s args = inr a -> s (assoc k args) = inr a.
Proof.
  unfold key. destruct (s (assoc k args)); [discriminate|].
  intros [= ->]. reflexivity.
Qed.

Lemma states_key_inr options args s :
  key "states" (z_default (z_enum options) "OPEN") args = inr s ->
  (assoc "states" args = None /\ s = "OPEN") \/
  (assoc "states" args = Some (JString s) /\ In s options).
Proof.
  intros H. apply key_inr in H. unfold z_default in H.
  destruct (assoc "states" args) as [v|] eqn:Hv.
  - right. apply z_enum_accepts in H as [[= ->] Hin]. auto.
  - left. injection H as <-. auto.
Qed.

Lemma issues_parse_inv parse args c :
  inputSchema "get_repository_issues" = Some parse ->
  parse args = inr c ->
  exists owner repo states first,
    c = GetRepositoryIssues owner repo states first /\
    key "states" (z_default (z_enum ["OPEN"; "CLOSED"; "ALL"]) "OPEN") args
      = inr states.
Proof.
  intros Hschema Hparse. rewrite (registered_shape _ _ Hschema) in Hparse.
  invert_keys. eauto 8.
Qed.

Lemma pulls_parse_inv parse args c :
  inputSchema "get_repository_pull_requests" = Some parse ->
  parse args = inr c ->
  exists owner repo states first,
    c = GetRepositoryPullRequests owner repo states first /\
    key "states"
        (z_default (z_enum ["OPEN"; "CLOSED"; "MERGED"; "ALL"]) "OPEN") args
      = inr states.
Proof.
  intros Hschema Hparse. rewrite (registered_shape _ _ Hschema) in Hparse.
  invert_keys. eauto 8.
Qed.

(** X9. Through [get_repository_issues] and
    [get_repository_pull_requests] only state lists GitHub knows reach
    the wire: the word ALL is never transmitted, and when [states] is
    left out the list is the single state OPEN. *)
Theorem only_known_states_reach_the_wire args rt req :
  (In req (network (snd (invoke "get_repository_issues" args rt))) ->
   In (variable "states" req)
      [Some (JArray [JString "OPEN"]); Some (JArray [JString "CLOSED"]);
       Some (JArray [JString "OPEN"; JString "CLOSED"])] /\
   (assoc "states" args = None ->
    variable "states" req = Some (JArray [JString "OPEN"]))) /\
  (In req (network (snd (invoke "get_repository_pull_requests" args rt))) ->
   In (variable "states" req)
      [Some (JArray [JString "OPEN"]); Some (JArray [JString "CLOSED"]);
       Some (JArray [JString "MERGED"]);
       Some (JArray [JString "OPEN"; JString "CLOSED"; JString "MERGED"])] /\
   (assoc "states" args = None ->
    variable "states" req = Some (JArray [JString "OPEN"]))).
Proof.
  split; intros Hin.
  - destruct (invoke_network_cases "get_repository_issues" args rt)
      as [Hnil | (c & Hnet & parse & Hschema & Hparse)];
      [rewrite Hnil in Hin; destruct Hin|].
    rewrite Hnet in Hin.
    destruct (issues_parse_inv parse args c Hschema Hparse)
      as (owner & repo & states & first & -> & Hstates).
    cbn [callback] in Hin. unfold get_repository_issues in Hin. cbv zeta in Hin.
    rewrite one_call_wire in Hin by (intros a; apply silent_text_result).
    apply in_wire_of_call in Hin as (token & _ & ->).
    apply states_key_inr in Hstates
      as [[Hnone ->] | [Hsome [<-|[<-|[<-|[]]]]]];
      (split; [cbn; tauto | intros H; try congruence; reflexivity]).
  - destruct (invoke_network_cases "get_repository_pull_requests" args rt)
      as [Hnil | (c & Hnet & parse & Hschema & Hparse)];
      [rewrite Hnil in Hin; destruct Hin|].
    rewrite Hnet in Hin.
    destruct (pulls_parse_inv parse args c Hschema Hparse)
      as (owner & repo & states & first & -> & Hstates).
    cbn [callback] in Hin. unfold get_repository_pull_requests in Hin.
    cbv zeta in Hin.
    rewrite one_call_wire in Hin by (intros a; apply silent_text_result).
    apply in_wire_of_call in Hin as (token & _ & ->).
    apply states_key_inr in Hstates
      as [[Hnone ->] | [Hsome [<-|[<-|[<-|[<-|[]]]]]]];
      (split; [cbn; tauto | intros H; try congruence; reflexivity]).
Qed.

Lemma only_known_states_witness :
  let rt := runtime_of (Some "ghp_token") (remote_answering errors_only) in
  let args := [("owner", JString "acme"); ("repo", JString "site")] in
  variable "states"
    (graphql_request "ghp_token" GetRepositoryPullRequests_query
       (JObject [("owner", JString "acme"); ("repo", JString "site");
                 ("states", JArray [JString "OPEN"]); ("first", JNumber 20)])) =
    Some (JArray [JString "OPEN"]).
Proof.
  intros rt args.
  apply (proj2 (proj2 (only_known_states_reach_the_wire args rt _)
                  (or_introl eq_refl))).
  reflexivity.
Defined.





(** X11. [get_repositories] end to end: with an owner, with [isOrg]
    given or left out and [first] left out, the one request sent asks
    for the organization's repositories when [isOrg] is true and for the
    user's otherwise (left out counts as false); its variables are the
    owner and 20, and neither [isOrg] nor any other key of the arguments
    is transmitted. *)
Theorem get_repositories_end_to_end args rt token owner (isOrg : option bool) :
  credential rt = Some token ->
  assoc "owner" args = Some (JString owner) ->
  assoc "isOrg" args = option_map JBool isOrg ->
  assoc "first" args = None ->
  network (snd (invoke "get_repositories" args rt)) =
    [graphql_request token
       (match isOrg with
        | Some true => GetOrgRepos_query
        | _ => GetUserRepos_query
        end)
       (JObject [("owner", JString owner); ("first", JNumber 20)])].
Proof.
  intros Hcred Howner HisOrg Hfirst.
  assert (Hparse :
            inr GetRepositories
              <*> key "owner" z_string args
              <*> key "isOrg" (z_default z_boolean false) args
              <*> key "first" first_schema args =
            @inr ZodError _
              (GetRepositories owner
                 (match isOrg with Some b => b | None => false end) 20%Q)).
  { rewrite (first_omitted args Hfirst).
    unfold key, z_default, z_string, z_boolean. rewrite Howner, HisOrg.
    destruct isOrg; reflexivity. }
  unfold invoke.
  change (inputSchema "get_repositories")
    with (Some (fun args => inr GetRepositories
                              <*> key "owner" z_string args
                              <*> key "isOrg" (z_default z_boolean false) args
                              <*> key "first" first_schema args)).
  cbv beta iota. rewrite Hparse. cbn [callback].
  assert (Hnet : network (snd (run (get_repositories owner
                    (match isOrg with Some b => b | None => false end) 20%Q) rt)) =
                 wire_of_call rt
                   (if match isOrg with Some b => b | None => false end
                    then GetOrgRepos_query else GetUserRepos_query)
                   (JObject [("owner", JString owner); ("first", JNumber 20)])).
  { unfold get_repositories. cbv zeta.
    apply one_call_wire. intros a. apply silent_text_result. }
  unfold wire_of_call in Hnet. rewrite Hcred in Hnet.
  destruct (run (get_repositories owner _ 20%Q) rt) as [[r|e] s];
    cbn [snd] in *; rewrite Hnet; destruct isOrg as [[|]|]; reflexivity.
Qed.

Lemma get_repositories_witness :
  let rt := runtime_of (Some "ghp_token") (remote_answering errors_only) in
  network (snd (invoke "get_repositories"
                  [("owner", JString "acme"); ("isOrg", JBool true);
                   ("page", JNumber 3)] rt)) =
    [graphql_request "ghp_token" GetOrgRepos_query
       (JObject [("owner", JString "acme"); ("first", JNumber 20)])].
Proof.
  intros rt.
  apply (get_repositories_end_to_end
           [("owner", JString "acme"); ("isOrg", JBool true); ("page", JNumber 3)]
           rt "ghp_token" "acme" (Some true));
    reflexivity.
Defined.

(** ** More on adding an item *)

Lemma lookup_is_no_mutation :
  AddProjectItem_mutation <> GetOrganizationProjectsByName_query /\
  AddDraftIssue_mutation <> GetOrganizationProjectsByName_query.
Proof.
  split; intros H; apply (f_equal String.length) in H; vm_compute in H;
    discriminate H.
Qed.

Lemma is_prefix_In {A} (l1 l2 : list A) x :
  is_prefix l1 l2 -> In x l1 -> In x l2.
Proof. intros [t ->] Hin. apply in_or_app. now left. Qed.

(** X12. When a non-empty project identifier is given,
    [add_item_to_project] does not look anything up: [organization] and
    [projectName], required as they are, have no influence on what the
    invocation does, and the lookup document is never sent. *)
Theorem given_projectId_needs_no_lookup organization organization' projectName
    projectName' projectId contentId title body rt :
  truthy projectId = true ->
  (forall s,
      add_item_to_project organization projectName projectId contentId title body
        rt s =
      add_item_to_project organization' projectName' projectId contentId title
        body rt s) /\
  ~ In (Some (JString GetOrganizationProjectsByName_query))
       (sent_documents
          (snd (run (add_item_to_project organization projectName projectId
                       contentId title body) rt))).
Proof.
  intros Hpid. split.
  - intros s. rewrite !add_item_to_project_eq.
    now rewrite !resolved_projectId_given by exact Hpid.
  - intros Hin.
    destruct (callback_documents rt
                (AddItemToProject organization projectName projectId contentId
                   title body)) as [Hpre _].
    cbv zeta in Hpre. cbn [callback documents] in Hpre.
    apply (is_prefix_In _ _ _ Hpre) in Hin.
    rewrite Hpid in Hin. cbn [app] in Hin.
    destruct lookup_is_no_mutation as [Hlink Hdraft].
    destruct (truthy contentId); [|destruct (truthy title)];
      cbn [wire map In] in Hin;
      [ destruct Hin as [[= H]|[]]; auto
      | destruct Hin as [[= H]|[]]; auto
      | destruct Hin ].
Qed.

Lemma given_projectId_witness :
  let rt := runtime_of (Some "ghp_token") (remote_answering item_added) in
  run (add_item_to_project "acme" "Roadmap" (Some "PVT_1") (Some "I_1") None None)
      rt =
  run (add_item_to_project "" "no such project" (Some "PVT_1") (Some "I_1") None
         None) rt.
Proof.
  intros rt.
  apply (proj1 (given_projectId_needs_no_lookup "acme" "" "Roadmap"
                  "no such project" (Some "PVT_1") (Some "I_1") None None rt
                  eq_refl)).
Defined.

(** X13. A title without a usable content identifier makes a draft: once
    the project identifier is settled, the one call that follows is the
    draft-issue mutation whose input carries the project identifier, the
    title and the body; a body left out is transmitted as the empty
    string, and no content identifier is transmitted. *)
Theorem title_alone_makes_a_draft rt token organization projectName projectId
    contentId title body :
  credential rt = Some token ->
  truthy contentId = false ->
  title <> "" ->
  let draft p :=
    graphql_request token AddDraftIssue_mutation
      (JObject [("input",
                 JObject (object_literal
                            [("projectId", p);
                             ("title", Some (JString title));
                             ("body", Some (JString (or_empty body)))]))]) in
  (forall p s1,
      run (resolved_projectId organization projectName projectId) rt
        = (Return p, s1) ->
      network (snd (run (add_item_to_project organization projectName projectId
                           contentId (Some title) body) rt)) =
        (network s1 ++ [draft p])%list) /\
  (forall p,
      input_field "title" (draft p) = Some (JString title) /\
      input_field "body" (draft p) = Some (JString (or_empty body)) /\
      input_field "contentId" (draft p) = None) /\
  (body = None -> forall p, input_field "body" (draft p) = Some (JString "")).
Proof.
  intros Hcred Hc Ht draft.
  apply credential_spec in Hcred as [Htok Hne].
  destruct title as [|t0 t]; [congruence|].
  split; [| split].
  - intros p s1 Hp. unfold run in *.
    rewrite add_item_to_project_eq, Hp. unfold chosen_mutation.
    rewrite Hc. cbn [truthy option_map].
    rewrite network_bind_silent by (intros a; apply silent_text_result).
    apply execute_network; assumption.
  - intros p. destruct p; repeat split; reflexivity.
  - intros -> p. destruct p; reflexivity.
Qed.

Lemma title_alone_witness :
  let rt := runtime_of (Some "ghp_token") (remote_answering item_added) in
  network (snd (run (add_item_to_project "acme" "Roadmap" (Some "PVT_1") None
                       (Some "Write the changelog") None) rt)) =
    [graphql_request "ghp_token" AddDraftIssue_mutation
       (JObject [("input", JObject [("projectId", JString "PVT_1");
                                    ("title", JString "Write the changelog");
                                    ("body", JString "")])])].
Proof.
  intros rt.
  apply (proj1 (title_alone_makes_a_draft rt "ghp_token" "acme" "Roadmap"
                  (Some "PVT_1") None "Write the changelog" None
                  eq_refl eq_refl ltac:(discriminate))
           (Some (JString "PVT_1")) no_effects).
  reflexivity.
Defined.

Lemma getProjectId_answered rt token organization projectName s r data :
  credential rt = Some token ->
  fetch rt (network s) (lookup_request token organization projectName) = Resolved r ->
  ok r = true ->
  json_body r = Return data ->
  getProjectId organization projectName rt s =
    (d <- get_property (Some data) "data" ;;
     o <- get_property d "organization" ;;
     p <- get_property o "projectsV2" ;;
     n <- get_property p "nodes" ;;
     node0 <- get_first n ;;
     get_property node0 "id") rt
      (sent s (lookup_request token organization projectName)).
Proof.
  intros Hcred Hfetch Hok Hjson. apply credential_spec in Hcred as [Htok Hne].
  unfold getProjectId. unfold bind at 1. unfold lookup_request in *.
  now rewrite (execute_success rt token _ _ s r data Htok Hne Hfetch Hok Hjson).
Qed.

(** X14. The lookup trusts the shape of its answer. Without a project
    identifier, when the answer to the lookup has no [data] (errors
    only), a [null] [data], or a [null] organization (one that does not
    exist), the invocation fails with the [TypeError] of the property
    read that hit the gap, after the one lookup call, without a mutation
    call and without a console line. *)
Theorem lookup_answer_with_a_gap_throws rt token organization projectName projectId
    contentId title body r members :
  credential rt = Some token ->
  truthy projectId = false ->
  fetch rt [] (lookup_request token organization projectName) = Resolved r ->
  ok r = true ->
  json_body r = Return (JObject members) ->
  let result :=
    run (add_item_to_project organization projectName projectId contentId title
           body) rt in
  let after_lookup := sent no_effects (lookup_request token organization projectName) in
  (assoc "data" members = None ->
   result =
     (Throw (TypeError "Cannot read properties of undefined (reading 'organization')"),
      after_lookup)) /\
  (assoc "data" members = Some JNull ->
   result =
     (Throw (TypeError "Cannot read properties of null (reading 'organization')"),
      after_lookup)) /\
  (forall d,
      assoc "data" members = Some (JObject d) ->
      assoc "organization" d = Some JNull ->
      result =
        (Throw (TypeError "Cannot read properties of null (reading 'projectsV2')"),
         after_lookup)).
Proof.
  intros Hcred Hpid Hfetch Hok Hjson result after_lookup. subst result.
  unfold run. rewrite add_item_to_project_eq.
  rewrite resolved_projectId_looked_up by exact Hpid.
  rewrite (getProjectId_answered rt token organization projectName no_effects r
             (JObject members) Hcred Hfetch Hok Hjson).
  fold after_lookup. unfold bind at 1. cbn [get_property ret].
  split; [| split].
  - intros ->. reflexivity.
  - intros ->. reflexivity.
  - intros d -> Horg. unfold bind at 1. cbn [get_property ret].
    rewrite Horg. reflexivity.
Qed.

Lemma lookup_gap_witness :
  let answer :=
    JObject [("data", JObject [("organization", JNull)]);
             ("errors",
              JArray [JObject [("message",
                                JString "Could not resolve to an Organization")]])] in
  let rt := runtime_of (Some "ghp_token") (remote_answering answer) in
  run (add_item_to_project "no-such-org" "Roadmap" None (Some "I_1") None None) rt =
    (Throw (TypeError "Cannot read properties of null (reading 'projectsV2')"),
     sent no_effects (lookup_request "ghp_token" "no-such-org" "Roadmap")).
Proof.
  intros answer rt.
  apply (proj2 (proj2 (lookup_answer_with_a_gap_throws rt "ghp_token" "no-such-org"
                         "Roadmap" None (Some "I_1") None None
                         {| status := 200; body_text := print_json answer;
                            json_body := Return answer |}
                         [("data", JObject [("organization", JNull)]);
                          ("errors",
                           JArray [JObject [("message",
                              JString "Could not resolve to an Organization")]])]
                         eq_refl eq_refl eq_refl eq_refl eq_refl))
           [("organization", JNull)]);
    reflexivity.
Defined.

(** X15. The first node of the lookup result is used as it comes. When
    it is [null], the invocation fails with the [TypeError] of reading
    [id] off [null] and sends no mutation; when it is an object without
    an [id], the mutation is sent all the same, with no [projectId] in
    its input. *)
Theorem first_node_is_not_checked rt token organization projectName projectId
    contentId title body r node rest :
  credential rt = Some token ->
  truthy projectId = false ->
  contentId <> "" ->
  fetch rt [] (lookup_request token organization projectName) = Resolved r ->
  ok r = true ->
  json_body r = Return (lookup_payload (node :: rest)) ->
  let result :=
    run (add_item_to_project organization projectName projectId (Some contentId)
           title body) rt in
  (node = JNull ->
   result =
     (Throw (TypeError "Cannot read properties of null (reading 'id')"),
      sent no_effects (lookup_request token organization projectName))) /\
  (forall members,
      node = JObject members ->
      assoc "id" members = None ->
      network (snd result) =
        [lookup_request token organization projectName;
         graphql_request token AddProjectItem_mutation
           (JObject [("input", JObject [("contentId", JString contentId)])])]).
Proof.
  intros Hcred Hpid Hc Hfetch Hok Hjson result. subst result.
  pose proof Hcred as Hcred'. apply credential_spec in Hcred' as [Htok Hne].
  destruct contentId as [|c0 c]; [congruence|].
  unfold run. rewrite add_item_to_project_eq.
  rewrite resolved_projectId_looked_up by exact Hpid.
  rewrite (getProjectId_found rt token organization projectName no_effects r
             (node :: rest) Htok Hne Hfetch Hok Hjson).
  split.
  - intros ->. reflexivity.
  - intros members -> Hid. cbn [get_property ret]. rewrite Hid.
    rewrite chosen_mutation_content.
    rewrite network_bind_silent by (intros a; apply silent_text_result).
    rewrite (execute_network rt token) by assumption. reflexivity.
Qed.

Lemma first_node_witness :
  let rt := runtime_of (Some "ghp_token")
              (remote_with_projects [JNull; project_node "PVT_1" "Roadmap"]
                 item_added) in
  run (add_item_to_project "acme" "Roadmap" None (Some "I_1") None None) rt =
    (Throw (TypeError "Cannot read properties of null (reading 'id')"),
     sent no_effects (lookup_request "ghp_token" "acme" "Roadmap")).
Proof.
  intros rt.
  apply (proj1 (first_node_is_not_checked rt "ghp_token" "acme" "Roadmap" None
                  "I_1" None None
                  {| status := 200;
                     body_text := print_json (lookup_payload
                                    [JNull; project_node "PVT_1" "Roadmap"]);
                     json_body := Return (lookup_payload
                                    [JNull; project_node "PVT_1" "Roadmap"]) |}
                  JNull [project_node "PVT_1" "Roadmap"]
                  eq_refl eq_refl ltac:(discriminate) eq_refl eq_refl eq_refl)).
  reflexivity.
Defined.

(** ** The current user

    [getCurrentUser] reads [viewer] and [login] the way [getProjectId]
    reads its path; these two names are not defined on a prototype
    either. *)

(** X16. [getCurrentUser] makes one call, the viewer query with empty
    variables, and returns the [login] of the viewer in the answer
    ([undefined] when the viewer has none); when the answer's viewer is
    [null] it throws the [TypeError] of reading [login] off [null]. *)
Theorem getCurrentUser_returns_the_login rt token s r members d :
  credential rt = Some token ->
  fetch rt (network s) (graphql_request token GetCurrentUser_query (JObject []))
    = Resolved r ->
  ok r = true ->
  json_body r = Return (JObject members) ->
  assoc "data" members = Some (JObject d) ->
  let after := sent s (graphql_request token GetCurrentUser_query (JObject [])) in
  (forall viewer,
      assoc "viewer" d = Some (JObject viewer) ->
      getCurrentUser rt s = (Return (assoc "login" viewer), after)) /\
  (assoc "viewer" d = Some JNull ->
   getCurrentUser rt s =
     (Throw (TypeError "Cannot read properties of null (reading 'login')"), after)).
Proof.
  intros Hcred Hfetch Hok Hjson Hdata after.
  apply credential_spec in Hcred as [Htok Hne].
  assert (Hrun : getCurrentUser rt s =
                 get_property (assoc "viewer" d) "login" rt after).
  { unfold getCurrentUser. unfold bind at 1.
    rewrite (execute_success rt token _ _ s r _ Htok Hne Hfetch Hok Hjson).
    fold after. unfold bind at 1. cbn [get_property ret]. rewrite Hdata.
    unfold bind at 1. cbn [get_property ret]. reflexivity. }
  rewrite Hrun. split.
  - intros viewer ->. reflexivity.
  - intros ->. reflexivity.
Qed.

Lemma getCurrentUser_witness :
  let rt := runtime_of (Some "ghp_token")
              (remote_answering (viewer_payload (JString "octocat"))) in
  run getCurrentUser rt =
    (Return (Some (JString "octocat")),
     sent no_effects (graphql_request "ghp_token" GetCurrentUser_query (JObject []))).
Proof.
  intros rt.
  apply (proj1 (getCurrentUser_returns_the_login rt "ghp_token" no_effects
                  {| status := 200;
                     body_text := print_json (viewer_payload (JString "octocat"));
                     json_body := Return (viewer_payload (JString "octocat")) |}
                  [("data", JObject [("viewer",
                      JObject [("id", JString "U_1");
                               ("login", JString "octocat")])])]
                  [("viewer", JObject [("id", JString "U_1");
                                       ("login", JString "octocat")])]
                  eq_refl eq_refl eq_refl eq_refl eq_refl)
           [("id", JString "U_1"); ("login", JString "octocat")]).
  reflexivity.
Defined.

Lemma documents_are_not_the_viewer_query c d :
  In d (documents c) -> d <> GetCurrentUser_query.
Proof.
  intros Hin Heq. subst d.
  assert (Hlen : forall d, In d (documents c) ->
                           String.length d <> String.length GetCurrentUser_query).
  { intros d Hd.
    destruct c; cbn [documents] in Hd;
      try (destruct Hd as [<-|[]]; vm_compute; discriminate).
    - apply in_app_or in Hd as [Hd|Hd].
      + destruct (truthy projectId); [destruct Hd|].
        destruct Hd as [<-|[]]; vm_compute; discriminate.
      + destruct (truthy contentId); [|destruct (truthy title)];
          try (destruct Hd as [<-|[]]; vm_compute; discriminate).
        destruct Hd.
    - destruct isOrg; destruct Hd as [<-|[]]; vm_compute; discriminate. }
  exact (Hlen _ Hin eq_refl).
Qed.

(** X17. No tool ever asks who the current user is: whatever is invoked
    with whatever arguments, the viewer query of [getCurrentUser] is not
    among the documents sent. *)
Theorem no_tool_sends_the_viewer_query name args rt :
  ~ In (Some (JString GetCurrentUser_query))
       (sent_documents (snd (invoke name args rt))).
Proof.
  unfold sent_documents.
  destruct (invoke_network_cases name args rt) as [-> | (c & -> & _)].
  - intros [].
  - intros Hin.
    destruct (callback_documents rt c) as [Hpre _]. cbv zeta in Hpre.
    apply (is_prefix_In _ _ _ Hpre) in Hin.
    unfold wire in Hin. apply in_map_iff in Hin as (d & [= ->] & Hd).
    exact (documents_are_not_the_viewer_query c _ Hd eq_refl).
Qed.

(** ** What a successful invocation has done *)

Lemma execute_Return_inv query variables rt s j s' :
  executeGitHubGraphQL query variables rt s = (Return j, s') ->
  exists token answer,
    credential rt = Some token /\
    fetch rt (network s) (graphql_request token query variables) = Resolved answer /\
    ok answer = true /\
    json_body answer = Return j /\
    s' = sent s (graphql_request token query variables).
Proof.
  rewrite executeGitHubGraphQL_eq. unfold credential.
  destruct (Deno_env_get rt "GITHUB_TOKEN") as [[|c t]|]; try discriminate.
  cbv zeta.
  destruct (fetch rt (network s) _) as [e|answer] eqn:Hfetch; [discriminate|].
  destruct (ok answer) eqn:Hok; [|discriminate].
  destruct (json_body answer) as [j'|e] eqn:Hjson; [|discriminate].
  intros [= <- <-]. exists (String c t), answer. auto.
Qed.

Lemma property_chain_state v k rt s a s' :
  get_property v k rt s = (Return a, s') -> s' = s.
Proof.
  intros H. pose proof (get_property_pure v k rt s) as Hs.
  rewrite H in Hs. exact Hs.
Qed.

Lemma getProjectId_Return_console organization projectName rt s p s' :
  getProjectId organization projectName rt s = (Return p, s') ->
  console s' = console s.
Proof.
  unfold getProjectId. intros H.
  apply bind_Return_inv in H as (data & s1 & Hexec & H).
  apply execute_Return_inv in Hexec as (token & answer & _ & _ & _ & _ & ->).
  apply bind_Return_inv in H as (d & s2 & H1 & H).
  apply property_chain_state in H1 as ->.
  apply bind_Return_inv in H as (o & s3 & H2 & H).
  apply property_chain_state in H2 as ->.
  apply bind_Return_inv in H as (pr & s4 & H3 & H).
  apply property_chain_state in H3 as ->.
  apply bind_Return_inv in H as (n & s5 & H4 & H).
  apply property_chain_state in H4 as ->.
  apply bind_Return_inv in H as (node0 & s6 & H5 & H).
  pose proof (get_first_pure n rt (sent s (graphql_request token
                GetOrganizationProjectsByName_query
                (JObject [("org", JString organization);
                          ("projectName", JString projectName)])))) as Hs6.
  rewrite H5 in Hs6. cbn [snd] in Hs6. subst s6.
  apply property_chain_state in H as ->. reflexivity.
Qed.

(** The console line a callback adds after its last call returned. *)
Lemma callback_success c rt result s :
  run (callback c) rt = (Return result, s) ->
  exists s0 query variables data s1,
    console s0 = [] /\
    executeGitHubGraphQL query variables rt s0 = (Return data, s1) /\
    result = envelope rt data /\
    network s = network s1 /\
    console s =
      (console s1 ++
       match c with
       | UpdateProjectItemField _ _ _ _ => [console_log_line data]
       | _ => []
       end)%list.
Proof.
  unfold run.
  destruct c as [organization | projectId | owner repo states first
                 | owner repo states first
                 | organization projectName projectId contentId title body
                 | projectId itemId fieldId value | owner isOrg first | projectId];
    cbn [callback];
    try (unfold get_github_projects, get_project_details, get_repository_issues,
           get_repository_pull_requests, get_repositories, get_project_views;
         cbv zeta; intros H;
         apply bind_Return_inv in H as (data & s1 & Hexec & H);
         rewrite text_result_eq in H; injection H as <- <-;
         exists no_effects; do 3 eexists; exists s1;
         repeat split; [exact Hexec | now rewrite app_nil_r]).
  - rewrite add_item_to_project_eq.
    destruct (resolved_projectId organization projectName projectId rt no_effects)
      as [[p|e] s0] eqn:Hresolved; [|discriminate].
    assert (Hconsole : console s0 = []).
    { unfold resolved_projectId in Hresolved.
      destruct (truthy projectId); cbn [negb] in Hresolved.
      - injection Hresolved as _ <-. reflexivity.
      - now apply getProjectId_Return_console in Hresolved. }
    destruct (chosen_mutation p contentId title body) as [[mutation variables]|];
      [|discriminate].
    intros H. apply bind_Return_inv in H as (data & s1 & Hexec & H).
    rewrite text_result_eq in H. injection H as <- <-.
    exists s0, mutation, variables, data, s1.
    repeat split; [exact Hconsole | exact Hexec | now rewrite app_nil_r].
  - unfold update_project_item_field. cbv zeta. intros H.
    apply bind_Return_inv in H as (data & s1 & Hexec & H).
    injection H as <- <-.
    exists no_effects. do 3 eexists. exists s1.
    repeat split; [exact Hexec | reflexivity ..].
Qed.

(** X18. Every success envelope is the answer to the invocation's last
    call and nothing else: when a callback returns, its result is the
    one-text envelope around the serialization of a value that is exactly
    the parsed body of the response, with a success status, to the last
    request on the wire. *)
Theorem envelope_carries_the_last_answer c rt result s :
  run (callback c) rt = (Return result, s) ->
  exists before req answer data,
    network s = (before ++ [req])%list /\
    fetch rt before req = Resolved answer /\
    ok answer = true /\
    json_body answer = Return data /\
    result = envelope rt data.
Proof.
  intros Hrun.
  destruct (callback_success c rt result s Hrun)
    as (s0 & query & variables & data & s1 & _ & Hexec & -> & Hnet & _).
  apply execute_Return_inv in Hexec
    as (token & answer & _ & Hfetch & Hok & Hjson & ->).
  exists (network s0), (graphql_request token query variables), answer, data.
  rewrite Hnet. auto.
Qed.

Lemma envelope_witness :
  let rt := runtime_of (Some "ghp_token")
              (remote_with_projects [project_node "PVT_1" "Roadmap"] item_added) in
  exists before req answer data,
    before = [lookup_request "ghp_token" "acme" "Roadmap"] /\
    fetch rt before req = Resolved answer /\
    ok answer = true /\
    json_body answer = Return data /\
    envelope rt item_added = envelope rt data.
Proof.
  intros rt.
  destruct (envelope_carries_the_last_answer
              (AddItemToProject "acme" "Roadmap" None (Some "I_1") None None) rt
              (envelope rt item_added)
              {| network := [lookup_request "ghp_token" "acme" "Roadmap";
                             graphql_request "ghp_token" AddProjectItem_mutation
                               (JObject [("input",
                                  JObject [("projectId", JString "PVT_1");
                                           ("contentId", JString "I_1")])])];
                 console := [] |} eq_refl)
    as (before & req & answer & data & Hnet & Hfetch & Hok & Hjson & Henv).
  exists before, req, answer, data.
  cbn [network] in Hnet.
  change [lookup_request "ghp_token" "acme" "Roadmap";
          graphql_request "ghp_token" AddProjectItem_mutation
            (JObject [("input", JObject [("projectId", JString "PVT_1");
                                         ("contentId", JString "I_1")])])]
    with ([lookup_request "ghp_token" "acme" "Roadmap"] ++
          [graphql_request "ghp_token" AddProjectItem_mutation
             (JObject [("input", JObject [("projectId", JString "PVT_1");
                                          ("contentId", JString "I_1")])])])%list
    in Hnet.
  apply app_inj_tail in Hnet as [<- _]. auto.
Defined.

(** X19. A successful invocation leaves the console clean, with one
    exception: [update_project_item_field] writes the payload it is about
    to return with [console.log], once. No success ever logs an
    error. *)
Theorem only_the_field_update_logs_on_success c rt result s :
  run (callback c) rt = (Return result, s) ->
  exists data,
    result = envelope rt data /\
    console s =
      match c with
      | UpdateProjectItemField _ _ _ _ => [console_log_line data]
      | _ => []
      end.
Proof.
  intros Hrun.
  destruct (callback_success c rt result s Hrun)
    as (s0 & query & variables & data & s1 & Hclean & Hexec & -> & _ & Hconsole).
  apply execute_Return_inv in Hexec as (token & answer & _ & _ & _ & _ & ->).
  exists data. split; [reflexivity|].
  rewrite Hconsole. cbn [sent console]. now rewrite Hclean.
Qed.

Lemma field_update_logs_witness :
  let rt := runtime_of (Some "ghp_token") (remote_answering item_added) in
  exists data,
    envelope rt item_added = envelope rt data /\
    [console_log_line item_added] = [console_log_line data].
Proof.
  intros rt.
  apply (only_the_field_update_logs_on_success
           (UpdateProjectItemField "PVT_1" "PVTI_1" "PVTF_1" "Done") rt
           (envelope rt item_added)
           {| network := [graphql_request "ghp_token"
                            UpdateProjectItemField_mutation
                            (JObject [("input",
                               JObject [("projectId", JString "PVT_1");
                                        ("itemId", JString "PVTI_1");
                                        ("fieldId", JString "PVTF_1");
                                        ("value", JString "Done")])])];
              console := [console_log_line item_added] |}).
  reflexivity.
Defined.

(** ** Arguments reach the wire unchanged *)

Lemma invoke_parsed name parse args c rt :
  inputSchema name = Some parse ->
  parse args = inr c ->
  network (snd (invoke name args rt)) = network (snd (run (callback c) rt)).
Proof.
  intros Hschema Hparse. unfold invoke. rewrite Hschema, Hparse.
  destruct (run (callback c) rt) as [[r|e] s]; reflexivity.
Qed.

Lemma key_string k args v :
  assoc k args = Some (JString v) -> key k z_string args = inr v.
Proof. intros H. unfold key, z_string. now rewrite H. Qed.

Lemma wire_with_credential rt token query variables :
  credential rt = Some token ->
  wire_of_call rt query variables = [graphql_request token query variables].
Proof. intros H. unfold wire_of_call. now rewrite H. Qed.

(** X20. The three single-argument tools end to end: whatever else the
    arguments object holds, the one request sent carries the tool's own
    document and, as its only variable, the supplied string unchanged
    ([organization] as [org], [projectId] as [id]). *)
Theorem single_argument_reaches_the_wire args rt token v :
  credential rt = Some token ->
  (assoc "organization" args = Some (JString v) ->
   network (snd (invoke "get_github_projects" args rt)) =
     [graphql_request token GetOrganizationProjects_query
        (JObject [("org", JString v)])]) /\
  (assoc "projectId" args = Some (JString v) ->
   network (snd (invoke "get_project_details" args rt)) =
     [graphql_request token GetProjectDetails_query
        (JObject [("id", JString v)])] /\
   network (snd (invoke "get_project_views" args rt)) =
     [graphql_request token GetProjectViews_query
        (JObject [("id", JString v)])]).
Proof.
  intros Hcred. split; [| intros Harg; split].
  - intros Harg.
    rewrite (invoke_parsed "get_github_projects" _ args (GetGithubProjects v) rt
               eq_refl)
      by (cbv beta; now rewrite (key_string _ _ _ Harg)).
    cbn [callback]. unfold get_github_projects.
    rewrite one_call_wire by (intros a; apply silent_text_result).
    now apply wire_with_credential.
  - rewrite (invoke_parsed "get_project_details" _ args (GetProjectDetails v) rt
               eq_refl)
      by (cbv beta; now rewrite (key_string _ _ _ Harg)).
    cbn [callback]. unfold get_project_details.
    rewrite one_call_wire by (intros a; apply silent_text_result).
    now apply wire_with_credential.
  - rewrite (invoke_parsed "get_project_views" _ args (GetProjectViews v) rt
               eq_refl)
      by (cbv beta; now rewrite (key_string _ _ _ Harg)).
    cbn [callback]. unfold get_project_views.
    rewrite one_call_wire by (intros a; apply silent_text_result).
    now apply wire_with_credential.
Qed.

Lemma single_argument_witness :
  let rt := runtime_of (Some "ghp_token") (remote_answering errors_only) in
  network (snd (invoke "get_github_projects"
                  [("organization", JString "acme"); ("verbose", JBool true)] rt)) =
    [graphql_request "ghp_token" GetOrganizationProjects_query
       (JObject [("org", JString "acme")])].
Proof.
  intros rt.
  apply (proj1 (single_argument_reaches_the_wire
                  [("organization", JString "acme"); ("verbose", JBool true)]
                  rt "ghp_token" "acme" eq_refl)).
  reflexivity.
Defined.

(** X21. [update_project_item_field] end to end: the one request sent is
    the field-update mutation whose input is the four supplied strings
    under their own names, unchanged and in the order projectId, itemId,
    fieldId, value; the value is always transmitted as a string. *)
Theorem field_update_reaches_the_wire args rt token projectId itemId fieldId value :
  credential rt = Some token ->
  assoc "projectId" args = Some (JString projectId) ->
  assoc "itemId" args = Some (JString itemId) ->
  assoc "fieldId" args = Some (JString fieldId) ->
  assoc "value" args = Some (JString value) ->
  network (snd (invoke "update_project_item_field" args rt)) =
    [graphql_request token UpdateProjectItemField_mutation
       (JObject [("input",
                  JObject [("projectId", JString projectId);
                           ("itemId", JString itemId);
                           ("fieldId", JString fieldId);
                           ("value", JString value)])])].
Proof.
  intros Hcred Hp Hi Hf Hv.
  rewrite (invoke_parsed "update_project_item_field" _ args
             (UpdateProjectItemField projectId itemId fieldId value) rt eq_refl)
    by (cbv beta;
        now rewrite (key_string _ _ _ Hp), (key_string _ _ _ Hi),
                    (key_string _ _ _ Hf), (key_string _ _ _ Hv)).
  cbn [callback]. unfold update_project_item_field. cbv zeta.
  rewrite one_call_wire by (intros a; apply silent_log_and_wrap).
  now apply wire_with_credential.
Qed.

Lemma field_update_wire_witness :
  let rt := runtime_of (Some "ghp_token") (remote_answering item_added) in
  let args := [("projectId", JString "PVT_1"); ("itemId", JString "PVTI_1");
               ("fieldId", JString "PVTF_1"); ("value", JString "Done")] in
  map (input_field "value") (network (snd (invoke "update_project_item_field" args rt))) =
    [Some (JString "Done")].
Proof.
  intros rt args.
  rewrite (field_update_reaches_the_wire args rt "ghp_token" "PVT_1" "PVTI_1"
             "PVTF_1" "Done" eq_refl eq_refl eq_refl eq_refl eq_refl).
  reflexivity.
Defined.

(** ** Failures *)

Lemma bind_Throw_inv {A B} (m : M A) (k : A -> M B) rt s e s' :
  bind m k rt s = (Throw e, s') ->
  m rt s = (Throw e, s') \/
  exists a s1, m rt s = (Return a, s1) /\ k a rt s1 = (Throw e, s').
Proof.
  unfold bind. destruct (m rt s) as [[a|e0] s1]; intros H.
  - right. eauto.
  - left. injection H as <- <-. reflexivity.
Qed.

Lemma execute_Throw_logged query variables rt s e s' :
  executeGitHubGraphQL query variables rt s = (Throw e, s') ->
  exists before,
    console s' = (before ++ [console_error_line "GraphQL query error:" e])%list.
Proof.
  intros H.
  pose proof (executeGitHubGraphQL_eq query variables rt s) as Heq.
  rewrite H in Heq.
  destruct (Deno_env_get rt "GITHUB_TOKEN") as [[|c t]|];
    cbv zeta in Heq;
    try (injection Heq as -> ->; eexists; reflexivity).
  destruct (fetch rt (network s) _) as [e0|r];
    [injection Heq as -> ->; eexists; reflexivity|].
  destruct (ok r); [destruct (json_body r)|];
    try discriminate;
    injection Heq as -> ->; eexists; reflexivity.
Qed.

Lemma get_property_Throw v k rt s e s' :
  get_property v k rt s = (Throw e, s') ->
  s' = s /\ exists what, e = cannot_read what k.
Proof.
  destruct v as [[| | | | |]|]; cbn [get_property ret throw];
    intros [= <- <-]; eauto.
Qed.

Lemma get_first_Throw v rt s e s' :
  get_first v rt s = (Throw e, s') ->
  s' = s /\ exists what, e = cannot_read what "0".
Proof.
  destruct v as [[| | |[|]| |]|]; cbn [get_first ret throw];
    intros [= <- <-]; eauto.
Qed.

Lemma get_first_state v rt s a s' :
  get_first v rt s = (Return a, s') -> s' = s.
Proof.
  intros H. pose proof (get_first_pure v rt s) as Hs.
  rewrite H in Hs. exact Hs.
Qed.

Lemma getProjectId_Throw organization projectName rt s e s' :
  getProjectId organization projectName rt s = (Throw e, s') ->
  (exists before,
      console s' = (before ++ [console_error_line "GraphQL query error:" e])%list) \/
  ((exists what k, e = cannot_read what k) /\ console s' = console s).
Proof.
  unfold getProjectId. intros H.
  apply bind_Throw_inv in H as [H | (data & s1 & Hexec & H)];
    [left; exact (execute_Throw_logged _ _ _ _ _ _ H)|].
  right.
  apply execute_Return_inv in Hexec as (token & answer & _ & _ & _ & _ & ->).
  repeat match type of H with
         | bind _ _ _ _ = (Throw _, _) =>
             let sx := fresh "sx" in
             let Hr := fresh "Hr" in
             apply bind_Throw_inv in H as [H | (? & sx & Hr & H)];
             [first [apply get_property_Throw in H as [-> [what ->]]
                    |apply get_first_Throw in H as [-> [what ->]]];
              split; [eauto | reflexivity]
             |first [apply property_chain_state in Hr
                    |apply get_first_state in Hr]; subst sx]
         end.
  apply get_property_Throw in H as [-> [what ->]].
  split; [eauto | reflexivity].
Qed.

(** X22. What fails, and whether it shows on the console. When a
    callback throws, either the executor threw, and then the last
    console line is its [console.error] line carrying that same error,
    or the failure is one of the two that belong to
    [add_item_to_project] alone and are never logged: the
    content-or-title error, and a [TypeError] from reading the lookup's
    answer; the console is then empty. *)
Theorem failures_are_logged_or_belong_to_add_item c rt e s :
  run (callback c) rt = (Throw e, s) ->
  (exists before,
      console s = (before ++ [console_error_line "GraphQL query error:" e])%list) \/
  (tool_name c = "add_item_to_project" /\
   console s = [] /\
   (e = InvalidParameter_contentId_title \/ exists what k, e = cannot_read what k)).
Proof.
  unfold run.
  destruct c as [organization | projectId | owner repo states first
                 | owner repo states first
                 | organization projectName projectId contentId title body
                 | projectId itemId fieldId value | owner isOrg first | projectId];
    cbn [callback];
    try (unfold get_github_projects, get_project_details, get_repository_issues,
           get_repository_pull_requests, get_repositories, get_project_views,
           update_project_item_field;
         cbv zeta; intros H;
         apply bind_Throw_inv in H as [H | (data & s1 & _ & H)];
         [left; exact (execute_Throw_logged _ _ _ _ _ _ H) | discriminate H]).
  rewrite add_item_to_project_eq. unfold resolved_projectId.
  destruct (truthy projectId); cbn [negb].
  - cbn [ret].
    destruct (chosen_mutation _ contentId title body) as [[mutation variables]|].
    + intros H. apply bind_Throw_inv in H as [H | (data & s1 & _ & H)];
        [left; exact (execute_Throw_logged _ _ _ _ _ _ H) | discriminate H].
    + intros [= <- <-]. right. auto.
  - destruct (getProjectId organization projectName rt no_effects)
      as [[p|e0] s0] eqn:Hlookup.
    + destruct (chosen_mutation p contentId title body)
        as [[mutation variables]|].
      * intros H. apply bind_Throw_inv in H as [H | (data & s1 & _ & H)];
          [left; exact (execute_Throw_logged _ _ _ _ _ _ H) | discriminate H].
      * intros [= <- <-]. right.
        apply getProjectId_Return_console in Hlookup. auto.
    + intros [= <- <-].
      destruct (getProjectId_Throw _ _ _ _ _ _ Hlookup)
        as [Hlogged | [Hread Hconsole]];
        [left; exact Hlogged | right; auto].
Qed.

Lemma failures_witness :
  let rt := runtime_of (Some "ghp_token") remote_unauthorized in
  let answer := JObject [("data", JObject [("organization", JNull)])] in
  let rt' := runtime_of (Some "ghp_token") (remote_answering answer) in
  (exists before,
      [console_error_line "GraphQL query error:"
         (Error "GitHub API error (401): Bad credentials")] =
      (before ++ [console_error_line "GraphQL query error:"
                    (Error "GitHub API error (401): Bad credentials")])%list) /\
  console (snd (run (add_item_to_project "no-such-org" "Roadmap" None
                       (Some "I_1") None None) rt')) = [].
Proof.
  intros rt answer rt'. split.
  - destruct (failures_are_logged_or_belong_to_add_item
                (GetProjectViews "PVT_1") rt
                (Error "GitHub API error (401): Bad credentials")
                (logged (sent no_effects
                           (graphql_request "ghp_token" GetProjectViews_query
                              (JObject [("id", JString "PVT_1")])))
                        (Error "GitHub API error (401): Bad credentials"))
                eq_refl) as [Hlogged | [Htool _]].
    + exact Hlogged.
    + discriminate Htool.
  - destruct (failures_are_logged_or_belong_to_add_item
                (AddItemToProject "no-such-org" "Roadmap" None (Some "I_1") None
                   None) rt'
                (TypeError "Cannot read properties of null (reading 'projectsV2')")
                (sent no_effects (lookup_request "ghp_token" "no-such-org" "Roadmap"))
                eq_refl) as [[before Hlogged] | (_ & Hconsole & _)].
    + destruct before; discriminate Hlogged.
    + reflexivity.
Defined.

Lemma fails_key_optional_string k args v :
  assoc k args = Some v ->
  (forall s, v <> JString s) ->
  fails_with (k, invalid_type "string" (typeof (Some v)))
             (key k (z_optional z_string) args).
Proof.
  intros Hk Hnot. apply fails_key. unfold z_optional. rewrite Hk.
  rewrite z_string_rejects; [reflexivity|].
  intros s [= ->]. now apply (Hnot s).
Qed.

(** X23. The optional arguments of [add_item_to_project] may be left
    out, but not be anything else than a string: a [projectId],
    [contentId], [title] or [body] that is present as [null], a number,
    a boolean, a list or an object fails validation with a type issue on
    that key, and no call is made ([null] does not count as absent). *)
Theorem optional_arguments_must_be_strings k args rt v :
  In k ["projectId"; "contentId"; "title"; "body"] ->
  assoc k args = Some v ->
  (forall s, v <> JString s) ->
  exists issues,
    invoke "add_item_to_project" args rt =
      (inl (InvalidArguments "add_item_to_project" issues), no_effects) /\
    In (k, invalid_type "string" (typeof (Some v))) issues.
Proof.
  intros Hin Hk Hnot.
  eapply invoke_fails; [reflexivity|]. cbv beta.
  pose proof (fails_key_optional_string k args v Hk Hnot) as Hfails.
  destruct Hin as [<-|[<-|[<-|[<-|[]]]]]; eauto 8 with zod.
Qed.

Lemma optional_arguments_witness :
  let rt := runtime_of (Some "ghp_token") (remote_answering item_added) in
  exists issues,
    invoke "add_item_to_project"
      [("organization", JString "acme"); ("projectName", JString "Roadmap");
       ("projectId", JNull); ("contentId", JString "I_1")] rt =
      (inl (InvalidArguments "add_item_to_project" issues), no_effects) /\
    In ("projectId", invalid_type "string" "null") issues.
Proof.
  intros rt.
  apply (optional_arguments_must_be_strings "projectId"
           [("organization", JString "acme"); ("projectName", JString "Roadmap");
            ("projectId", JNull); ("contentId", JString "I_1")] rt JNull).
  - simpl. tauto.
  - reflexivity.
  - intros s. discriminate.
Defined.

Lemma getProjectId_Return_inv organization projectName rt s p s' :
  getProjectId organization projectName rt s = (Return p, s') ->
  exists token answer data,
    credential rt = Some token /\
    fetch rt (network s) (lookup_request token organization projectName)
      = Resolved answer /\
    ok answer = true /\
    json_body answer = Return data /\
    network s' = (network s ++ [lookup_request token organization projectName])%list.
Proof.
  intros H.
  pose proof (f_equal (fun x => network (snd x)) H) as Hnet. cbn [snd] in Hnet.
  unfold getProjectId in H.
  apply bind_Return_inv in H as (data & s1 & Hexec & _).
  apply execute_Return_inv in Hexec
    as (token & answer & Hcred & Hfetch & Hok & Hjson & _).
  exists token, answer, data. repeat split; try assumption.
  rewrite <- Hnet. apply credential_spec in Hcred as [Htok Hne].
  now apply getProjectId_network.
Qed.

(** X24. Calls are made one after the other and stop at the first
    failure: whenever an invocation has put two requests on the wire,
    the first was the project lookup and it had been answered with a
    success status and a body that parses. A mutation is never sent
    after a lookup that failed. *)
Theorem second_call_follows_an_answered_lookup c rt first second :
  network (snd (run (callback c) rt)) = [first; second] ->
  exists organization projectName projectId contentId title body token answer data,
    c = AddItemToProject organization projectName projectId contentId title body /\
    truthy projectId = false /\
    first = lookup_request token organization projectName /\
    fetch rt [] first = Resolved answer /\
    ok answer = true /\
    json_body answer = Return data.
Proof.
  intros Hnet.
  destruct (callback_documents rt c) as [Hlen _]. cbv zeta in Hlen.
  apply is_prefix_length in Hlen. unfold sent_documents, wire in Hlen.
  rewrite !length_map, Hnet in Hlen. cbn [length] in Hlen.
  pose proof (documents_within_budget c) as Hbudget.
  destruct c as [organization | projectId | owner repo states first0
                 | owner repo states first0
                 | organization projectName projectId contentId title body
                 | projectId itemId fieldId value | owner isOrg first0 | projectId];
    cbn [call_budget] in Hbudget; try lia.
  destruct (truthy projectId) eqn:Hpid; [lia|].
  cbn [callback] in Hnet. unfold run in Hnet.
  rewrite add_item_to_project_eq in Hnet.
  rewrite resolved_projectId_looked_up in Hnet by exact Hpid.
  destruct (getProjectId organization projectName rt no_effects)
    as [[p|e] s0] eqn:Hlookup.
  - apply getProjectId_Return_inv in Hlookup
      as (token & answer & data & Hcred & Hfetch & Hok & Hjson & Hs0).
    cbn [network no_effects app] in Hs0, Hfetch.
    exists organization, projectName, projectId, contentId, title, body,
           token, answer, data.
    assert (Hfirst : first = lookup_request token organization projectName).
    { destruct (chosen_mutation p contentId title body)
        as [[mutation variables]|].
      - rewrite network_bind_silent in Hnet
          by (intros a; apply silent_text_result).
        rewrite execute_wire, Hs0 in Hnet. cbn [app] in Hnet.
        now injection Hnet as <- _.
      - cbn [snd] in Hnet. rewrite Hs0 in Hnet. discriminate Hnet. }
    subst first. auto 10.
  - exfalso. cbn [snd] in Hnet.
    destruct (getProjectId_sends_at_most_the_lookup rt organization projectName)
      as [Hnone | [token Hone]];
      unfold run in *; rewrite Hlookup in *; cbn [snd] in *; congruence.
Qed.

Lemma second_call_witness :
  let rt := runtime_of (Some "ghp_token")
              (remote_with_projects [project_node "PVT_1" "Roadmap"] item_added) in
  exists answer data,
    fetch rt [] (lookup_request "ghp_token" "acme" "Roadmap") = Resolved answer /\
    ok answer = true /\
    json_body answer = Return data.
Proof.
  intros rt.
  destruct (second_call_follows_an_answered_lookup
              (AddItemToProject "acme" "Roadmap" None (Some "I_1") None None) rt
              (lookup_request "ghp_token" "acme" "Roadmap")
              (graphql_request "ghp_token" AddProjectItem_mutation
                 (JObject [("input", JObject [("projectId", JString "PVT_1");
                                              ("contentId", JString "I_1")])]))
              eq_refl)
    as (o & n & pid & cid & t & b & token & answer & data
        & _ & _ & Hfirst & Hfetch & Hok & Hjson).
  exists answer, data. auto.
Defined.
